(** * Shopr personalization engine

    A shallow embedding of the [PersonalizationEngine] class of
    [src/assets/js/production-analytics.js]: user profiling
    ([updateUserProfile] and its helpers), collaborative filtering
    ([calculateUserSimilarity], [findSimilarUsers]), content-based and
    hybrid recommendation ([getContentBasedRecommendations],
    [getCollaborativeRecommendations], [getPersonalizedRecommendations],
    [applyDiversityFilter]) and contextual adaptation
    ([applyContextualBoost], [getRecommendations]).

    Conventions of the embedding.
    - A JavaScript number is an extended real: a real, [Infinity],
      [-Infinity] or [NaN].  The special values follow IEEE 754; on finite
      values the arithmetic is exact (rounding, overflow and the sign of
      zero are abstracted).
    - An object used as a dictionary, and a [Map], is the list of its
      entries in insertion order.  The members an object inherits from
      [Object.prototype] are no entries: what the engine reads by such a
      name ([inheritedNames]) is outside the model, and the statements
      about values read by name leave those names out.
    - The engine is a state ([Engine]) threaded through a state monad; the
      clock ([Date.now()], [new Date()]) is an oracle stored in the state,
      every reading of which consumes one tick.
    - A property that may be missing ([undefined]) is an [option]. *)

From Stdlib Require Import List String Bool Arith ZArith Reals Lra Lia.
From Stdlib Require Import Permutation Sorted.
Import ListNotations.

Set Implicit Arguments.

(** ** JavaScript numbers *)

Inductive number : Type :=
| Fin (r : R)
| PosInf
| NegInf
| NaN.

Declare Scope js_scope.
Delimit Scope js_scope with js.
Bind Scope js_scope with number.

Module Num.

Definition Rltb (a b : R) : bool := if Rlt_dec a b then true else false.
Definition Reqb (a b : R) : bool := if Req_dec_T a b then true else false.

Definition ofNat (n : nat) : number := Fin (INR n).
Definition ofZ (z : Z) : number := Fin (IZR z).

Definition neg (x : number) : number :=
  match x with
  | Fin r => Fin (- r)
  | PosInf => NegInf
  | NegInf => PosInf
  | NaN => NaN
  end.

Definition add (x y : number) : number :=
  match x, y with
  | NaN, _ | _, NaN => NaN
  | Fin a, Fin b => Fin (a + b)
  | PosInf, NegInf | NegInf, PosInf => NaN
  | PosInf, _ | _, PosInf => PosInf
  | NegInf, _ | _, NegInf => NegInf
  end.

Definition sub (x y : number) : number := add x (neg y).

(** [signed r v] is [v], [-v] or [NaN] as [r] is positive, negative or zero:
    the product of an infinity [v] with the finite [r]. *)
Definition signed (r : R) (v : number) : number :=
  if Rltb 0 r then v else if Rltb r 0 then neg v else NaN.

Definition mul (x y : number) : number :=
  match x, y with
  | NaN, _ | _, NaN => NaN
  | Fin a, Fin b => Fin (a * b)
  | Fin a, PosInf | PosInf, Fin a => signed a PosInf
  | Fin a, NegInf | NegInf, Fin a => signed a NegInf
  | PosInf, PosInf | NegInf, NegInf => PosInf
  | PosInf, NegInf | NegInf, PosInf => NegInf
  end.

Definition div (x y : number) : number :=
  match x, y with
  | NaN, _ | _, NaN => NaN
  | Fin a, Fin b => if Reqb b 0 then signed a PosInf else Fin (a / b)
  | Fin _, _ => Fin 0
  | PosInf, Fin b => if Rltb b 0 then NegInf else PosInf
  | NegInf, Fin b => if Rltb b 0 then PosInf else NegInf
  | _, _ => NaN
  end.

(** [x < y], [x > y], [x <= y], [x >= y], [x === y]: all false on [NaN]. *)
Definition lt (x y : number) : bool :=
  match x, y with
  | Fin a, Fin b => Rltb a b
  | Fin _, PosInf | NegInf, Fin _ | NegInf, PosInf => true
  | _, _ => false
  end.

Definition gt (x y : number) : bool := lt y x.

Definition eq (x y : number) : bool :=
  match x, y with
  | Fin a, Fin b => Reqb a b
  | PosInf, PosInf | NegInf, NegInf => true
  | _, _ => false
  end.

Definition le (x y : number) : bool := lt x y || eq x y.
Definition ge (x y : number) : bool := le y x.

(** Truthiness of a number: everything but [0] and [NaN]. *)
Definition truthy (x : number) : bool :=
  match x with
  | Fin r => negb (Reqb r 0)
  | NaN => false
  | _ => true
  end.

(** [Math.max], [Math.min]: [NaN] as soon as an argument is. *)
Definition max (x y : number) : number :=
  match x, y with
  | NaN, _ | _, NaN => NaN
  | _, _ => if lt x y then y else x
  end.

Definition min (x y : number) : number :=
  match x, y with
  | NaN, _ | _, NaN => NaN
  | _, _ => if lt y x then y else x
  end.

Definition sqrt (x : number) : number :=
  match x with
  | Fin r => if Rltb r 0 then NaN else Fin (R_sqrt.sqrt r)
  | PosInf => PosInf
  | _ => NaN
  end.

Definition ceil (x : number) : number :=
  match x with Fin r => Fin (IZR (Zceil r)) | _ => x end.

Definition floor (x : number) : number :=
  match x with Fin r => Fin (IZR (Zfloor r)) | _ => x end.

(** An array index computed as a number ([a[Math.floor(...)]]): the
    position it denotes, if any. *)
Definition index (x : number) : option nat :=
  match x with
  | Fin r => if Reqb (IZR (Zfloor r)) r
             then if Rltb r 0 then None else Some (Z.to_nat (Zfloor r))
             else None
  | _ => None
  end.

End Num.

Notation "x + y" := (Num.add x y) : js_scope.
Notation "x - y" := (Num.sub x y) : js_scope.
Notation "x * y" := (Num.mul x y) : js_scope.
Notation "x / y" := (Num.div x y) : js_scope.
Notation "x < y" := (Num.lt x y) : js_scope.
Notation "x > y" := (Num.gt x y) : js_scope.
Notation "x <= y" := (Num.le x y) : js_scope.
Notation "x >= y" := (Num.ge x y) : js_scope.
Notation "x === y" := (Num.eq x y) (at level 70, no associativity) : js_scope.

(** A decimal literal of the source. *)
Notation "# r" := (Fin r%R) (at level 1, format "# r") : js_scope.

(** ** Arrays, and objects used as dictionaries *)

Class EqDec (A : Type) := eq_dec : forall x y : A, {x = y} + {x <> y}.

#[export] Instance string_EqDec : EqDec string := string_dec.
#[export] Instance Z_EqDec : EqDec Z := Z.eq_dec.
#[export] Instance nat_EqDec : EqDec nat := Nat.eq_dec.

#[export] Instance option_EqDec {A} `{EqDec A} : EqDec (option A).
Proof. intros [x|] [y|]; try (right; discriminate); try (left; reflexivity).
  destruct (eq_dec x y); [left; congruence | right; congruence]. Defined.

(** [x === y] on strings, ids and optional ones ([undefined === undefined]). *)
Definition same {A} `{EqDec A} (x y : A) : bool :=
  if eq_dec x y then true else false.

(** [l.includes(x)], and [Set.prototype.has]. *)
Fixpoint includes {A} `{EqDec A} (x : A) (l : list A) : bool :=
  match l with
  | [] => false
  | y :: r => same x y || includes x r
  end.

(** The elements of [l] not in [seen], each once, in order of first
    occurrence. *)
Fixpoint uniq {A} `{EqDec A} (seen l : list A) : list A :=
  match l with
  | [] => []
  | x :: r => if includes x seen then uniq seen r else x :: uniq (x :: seen) r
  end.

(** [[...new Set(l)]]: a [Set] keeps insertion order and ignores an element
    it already has. *)
Definition SetOf {A} `{EqDec A} (l : list A) : list A := uniq [] l.

(** [s.add(x)] on a [Set] held as the list of its elements. *)
Definition SetAdd {A} `{EqDec A} (x : A) (s : list A) : list A :=
  if includes x s then s else s ++ [x].

(** [l.slice(0, n)] and [l.slice(-n)] for a count [n]; [slice(-0)] is
    [slice(0)], the whole array. *)
Definition slice0 {A} (n : nat) (l : list A) : list A := firstn n l.

Definition sliceLast {A} (n : nat) (l : list A) : list A :=
  match n with
  | O => l
  | _ => skipn (List.length l - n) l
  end.

(** [l.sort(compareFn)].  [a] stays before [b] unless [compareFn(a, b) > 0]
    (a [NaN] result counts as [0]); the sort is stable.  This is the order
    every engine produces for a consistent comparator; for an inconsistent
    one the order is implementation-defined, and this model is one
    implementation. *)
Section Sort.
Context {A : Type} (compareFn : A -> A -> number).

Fixpoint insert (x : A) (l : list A) : list A :=
  match l with
  | [] => [x]
  | y :: r => if (compareFn x y > Fin 0)%js then y :: insert x r else x :: l
  end.

Definition sort (l : list A) : list A := fold_right insert [] l.

End Sort.

(** A dictionary: the own properties of an object, or the entries of a
    [Map], in insertion order.  Of two entries with one key the first is the
    property, the second is never seen. *)
Definition Dict (K V : Type) : Type := list (K * V).

Section Dict.
Context {K V : Type} `{EqDec K}.

(** [d[k]], [d.get(k)] *)
Fixpoint get (k : K) (d : Dict K V) : option V :=
  match d with
  | [] => None
  | (k', v) :: r => if same k k' then Some v else get k r
  end.

(** [d[k] = v], [d.set(k, v)]: an existing key keeps its place. *)
Fixpoint set (k : K) (v : V) (d : Dict K V) : Dict K V :=
  match d with
  | [] => [(k, v)]
  | (k', v') :: r => if same k k' then (k, v) :: r else (k', v') :: set k v r
  end.

(** [d.has(k)] *)
Definition has (k : K) (d : Dict K V) : bool :=
  match get k d with Some _ => true | None => false end.

(** [Object.keys(d)], [d.keys()] *)
Definition keys (d : Dict K V) : list K := SetOf (map fst d).

(** [Object.entries(d)], [Array.from(d.entries())] *)
Fixpoint entriesOf (ks : list K) (d : Dict K V) : list (K * V) :=
  match ks with
  | [] => []
  | k :: r => match get k d with
              | Some v => (k, v) :: entriesOf r d
              | None => entriesOf r d
              end
  end.

Definition entries (d : Dict K V) : list (K * V) := entriesOf (keys d) d.

End Dict.

(** [x || d] on a number that may be missing. *)
Definition orElse (x : option number) (d : number) : number :=
  match x with
  | Some v => if Num.truthy v then v else d
  | None => d
  end.

(** [!x] on a number that may be missing. *)
Definition falsy (x : option number) : bool :=
  match x with
  | Some v => negb (Num.truthy v)
  | None => true
  end.

(** Truthiness of a string that may be missing. *)
Definition present (s : option string) : bool :=
  match s with
  | Some EmptyString | None => false
  | Some _ => true
  end.

(** A property key made of a value that may be missing: [d[undefined]] reads
    the property named ["undefined"]. *)
Definition key (s : option string) : string :=
  match s with Some k => k | None => "undefined"%string end.

(** The names every object inherits from [Object.prototype].  An object
    used as a dictionary answers them with the inherited member (a function,
    or the prototype itself), also when it has no entry of that name, where
    [get] answers [None]: [get k d] is [d[k]] for every other name, and for
    every key of a [Map].  What the engine computes from an inherited member
    is no number any more ([NaN] or a string); the statements about values
    read by name are made for the names that are not inherited. *)
Definition inheritedNames : list string :=
  [ "constructor"; "toString"; "toLocaleString"; "valueOf"; "hasOwnProperty";
    "isPrototypeOf"; "propertyIsEnumerable"; "__proto__"; "__defineGetter__";
    "__defineSetter__"; "__lookupGetter__"; "__lookupSetter__" ]%string.

(** [k] is none of the inherited names. *)
Definition ownName (k : string) : bool := negb (includes k inheritedNames).

(** ** Data model *)

(** The argument of [trackUserInteraction] and [updateUserProfile]. *)
Module Interaction.
Record t : Type := {
  type : option string;
  productId : option Z;
  category : option string;
  brand : option string;
  price : option number;
  style : option string;
  tags : option (list string);
  season : option string;
  timeOfDay : option string;
  timestamp : option Z
}.
End Interaction.

(** An entry of [behaviorHistory]:
    [{ ...interaction, timestamp: now, weight: ... }]. *)
Module HistoryEntry.
Record t : Type := {
  interaction : Interaction.t;
  timestamp : Z;
  weight : number
}.
Definition type (h : t) : option string := Interaction.type (interaction h).
Definition productId (h : t) : option Z := Interaction.productId (interaction h).
End HistoryEntry.

(** An entry of [purchaseHistory]. *)
Module Purchase.
Record t : Type := {
  productId : option Z;
  price : option number;
  category : option string;
  timestamp : Z
}.
End Purchase.

Module PriceRange.
Record t : Type := { min : number; max : number }.
End PriceRange.

(** [styleProfile] starts as [{}]: [styles] and [tags] are created by the
    first [updateStyleProfile]. *)
Module StyleProfile.
Record t : Type := {
  styles : option (Dict string number);
  tags : option (Dict string number)
}.
End StyleProfile.

(** A user profile.  [demographics], [preferences], [searchHistory] and
    [seasonalPreferences] are left out: the engine creates them empty and
    never reads or writes them. *)
Module Profile.
Record t : Type := {
  userId : string;
  behaviorHistory : list HistoryEntry.t;
  purchaseHistory : list Purchase.t;
  categoryAffinities : Dict string number;
  brandAffinities : Dict string number;
  priceRange : PriceRange.t;
  preferredPriceRange : option PriceRange.t;
  styleProfile : StyleProfile.t;
  lastUpdated : Z;
  totalInteractions : nat;
  conversionRate : number;
  averageOrderValue : number;
  lifetimeValue : number
}.

(** Assignments to one property of a profile. *)
Definition with_behaviorHistory (v : list HistoryEntry.t) (p : t) : t :=
  {| userId := userId p;
     behaviorHistory := v;
     purchaseHistory := purchaseHistory p;
     categoryAffinities := categoryAffinities p;
     brandAffinities := brandAffinities p;
     priceRange := priceRange p;
     preferredPriceRange := preferredPriceRange p;
     styleProfile := styleProfile p;
     lastUpdated := lastUpdated p;
     totalInteractions := totalInteractions p;
     conversionRate := conversionRate p;
     averageOrderValue := averageOrderValue p;
     lifetimeValue := lifetimeValue p |}.

Definition with_purchaseHistory (v : list Purchase.t) (p : t) : t :=
  {| userId := userId p;
     behaviorHistory := behaviorHistory p;
     purchaseHistory := v;
     categoryAffinities := categoryAffinities p;
     brandAffinities := brandAffinities p;
     priceRange := priceRange p;
     preferredPriceRange := preferredPriceRange p;
     styleProfile := styleProfile p;
     lastUpdated := lastUpdated p;
     totalInteractions := totalInteractions p;
     conversionRate := conversionRate p;
     averageOrderValue := averageOrderValue p;
     lifetimeValue := lifetimeValue p |}.

Definition with_categoryAffinities (v : Dict string number) (p : t) : t :=
  {| userId := userId p;
     behaviorHistory := behaviorHistory p;
     purchaseHistory := purchaseHistory p;
     categoryAffinities := v;
     brandAffinities := brandAffinities p;
     priceRange := priceRange p;
     preferredPriceRange := preferredPriceRange p;
     styleProfile := styleProfile p;
     lastUpdated := lastUpdated p;
     totalInteractions := totalInteractions p;
     conversionRate := conversionRate p;
     averageOrderValue := averageOrderValue p;
     lifetimeValue := lifetimeValue p |}.

Definition with_brandAffinities (v : Dict string number) (p : t) : t :=
  {| userId := userId p;
     behaviorHistory := behaviorHistory p;
     purchaseHistory := purchaseHistory p;
     categoryAffinities := categoryAffinities p;
     brandAffinities := v;
     priceRange := priceRange p;
     preferredPriceRange := preferredPriceRange p;
     styleProfile := styleProfile p;
     lastUpdated := lastUpdated p;
     totalInteractions := totalInteractions p;
     conversionRate := conversionRate p;
     averageOrderValue := averageOrderValue p;
     lifetimeValue := lifetimeValue p |}.

Definition with_priceRange (v : PriceRange.t) (p : t) : t :=
  {| userId := userId p;
     behaviorHistory := behaviorHistory p;
     purchaseHistory := purchaseHistory p;
     categoryAffinities := categoryAffinities p;
     brandAffinities := brandAffinities p;
     priceRange := v;
     preferredPriceRange := preferredPriceRange p;
     styleProfile := styleProfile p;
     lastUpdated := lastUpdated p;
     totalInteractions := totalInteractions p;
     conversionRate := conversionRate p;
     averageOrderValue := averageOrderValue p;
     lifetimeValue := lifetimeValue p |}.

Definition with_preferredPriceRange (v : option PriceRange.t) (p : t) : t :=
  {| userId := userId p;
     behaviorHistory := behaviorHistory p;
     purchaseHistory := purchaseHistory p;
     categoryAffinities := categoryAffinities p;
     brandAffinities := brandAffinities p;
     priceRange := priceRange p;
     preferredPriceRange := v;
     styleProfile := styleProfile p;
     lastUpdated := lastUpdated p;
     totalInteractions := totalInteractions p;
     conversionRate := conversionRate p;
     averageOrderValue := averageOrderValue p;
     lifetimeValue := lifetimeValue p |}.

Definition with_styleProfile (v : StyleProfile.t) (p : t) : t :=
  {| userId := userId p;
     behaviorHistory := behaviorHistory p;
     purchaseHistory := purchaseHistory p;
     categoryAffinities := categoryAffinities p;
     brandAffinities := brandAffinities p;
     priceRange := priceRange p;
     preferredPriceRange := preferredPriceRange p;
     styleProfile := v;
     lastUpdated := lastUpdated p;
     totalInteractions := totalInteractions p;
     conversionRate := conversionRate p;
     averageOrderValue := averageOrderValue p;
     lifetimeValue := lifetimeValue p |}.

Definition with_lastUpdated (v : Z) (p : t) : t :=
  {| userId := userId p;
     behaviorHistory := behaviorHistory p;
     purchaseHistory := purchaseHistory p;
     categoryAffinities := categoryAffinities p;
     brandAffinities := brandAffinities p;
     priceRange := priceRange p;
     preferredPriceRange := preferredPriceRange p;
     styleProfile := styleProfile p;
     lastUpdated := v;
     totalInteractions := totalInteractions p;
     conversionRate := conversionRate p;
     averageOrderValue := averageOrderValue p;
     lifetimeValue := lifetimeValue p |}.

Definition with_totalInteractions (v : nat) (p : t) : t :=
  {| userId := userId p;
     behaviorHistory := behaviorHistory p;
     purchaseHistory := purchaseHistory p;
     categoryAffinities := categoryAffinities p;
     brandAffinities := brandAffinities p;
     priceRange := priceRange p;
     preferredPriceRange := preferredPriceRange p;
     styleProfile := styleProfile p;
     lastUpdated := lastUpdated p;
     totalInteractions := v;
     conversionRate := conversionRate p;
     averageOrderValue := averageOrderValue p;
     lifetimeValue := lifetimeValue p |}.

Definition with_conversionRate (v : number) (p : t) : t :=
  {| userId := userId p;
     behaviorHistory := behaviorHistory p;
     purchaseHistory := purchaseHistory p;
     categoryAffinities := categoryAffinities p;
     brandAffinities := brandAffinities p;
     priceRange := priceRange p;
     preferredPriceRange := preferredPriceRange p;
     styleProfile := styleProfile p;
     lastUpdated := lastUpdated p;
     totalInteractions := totalInteractions p;
     conversionRate := v;
     averageOrderValue := averageOrderValue p;
     lifetimeValue := lifetimeValue p |}.

Definition with_averageOrderValue (v : number) (p : t) : t :=
  {| userId := userId p;
     behaviorHistory := behaviorHistory p;
     purchaseHistory := purchaseHistory p;
     categoryAffinities := categoryAffinities p;
     brandAffinities := brandAffinities p;
     priceRange := priceRange p;
     preferredPriceRange := preferredPriceRange p;
     styleProfile := styleProfile p;
     lastUpdated := lastUpdated p;
     totalInteractions := totalInteractions p;
     conversionRate := conversionRate p;
     averageOrderValue := v;
     lifetimeValue := lifetimeValue p |}.

Definition with_lifetimeValue (v : number) (p : t) : t :=
  {| userId := userId p;
     behaviorHistory := behaviorHistory p;
     purchaseHistory := purchaseHistory p;
     categoryAffinities := categoryAffinities p;
     brandAffinities := brandAffinities p;
     priceRange := priceRange p;
     preferredPriceRange := preferredPriceRange p;
     styleProfile := styleProfile p;
     lastUpdated := lastUpdated p;
     totalInteractions := totalInteractions p;
     conversionRate := conversionRate p;
     averageOrderValue := averageOrderValue p;
     lifetimeValue := v |}.

End Profile.

(** A product of the catalog, as far as the engine reads it. *)
Module Product.
Record t : Type := {
  id : Z;
  category : option string;
  brand : option string;
  price : option number;
  tags : option (list string);
  season : option string
}.
End Product.

(** ** Configuration *)

Module TimeWeights.
Record t : Type := { recent : number; week : number; month : number; older : number }.
End TimeWeights.

(** [this.config], as far as the modelled methods read it. *)
Module Config.
Record t : Type := {
  maxHistoryItems : nat;
  categoryWeights : Dict string number;
  clickWeights : Dict string number;
  timeWeights : TimeWeights.t;
  hybridWeight : number;
  minSimilarUsers : nat;
  diversityFactor : number;
  realTimeAdaptation : bool
}.
End Config.

(** The argument of the constructor.  The final [...config] of the
    constructor copies every option over the section of [this.config] that
    has its name.  The one option named after a section that is modelled is
    [realTimeAdaptation], a boolean (see [makeConfig]); options that replace
    another section by an object of their own are outside the model. *)
Module Options.
Record t : Type := {
  maxHistoryItems : option nat;
  categoryWeights : option (Dict string number);
  hybridWeight : option number;
  minSimilarUsers : option nat;
  diversityFactor : option number;
  realTimeAdaptation : option bool
}.
Definition empty : t :=
  {| maxHistoryItems := None; categoryWeights := None; hybridWeight := None;
     minSimilarUsers := None; diversityFactor := None;
     realTimeAdaptation := None |}.
End Options.

(** [n || d] on a count. *)
Definition countOr (n : option nat) (d : nat) : nat :=
  match n with
  | Some (S k) => S k
  | _ => d
  end.

(** String literals are read as [string]s; [++] and the comparisons stay those
    of lists and of [nat]. *)
Open Scope string_scope.
Open Scope list_scope.
Open Scope nat_scope.

Definition defaultCategoryWeights : Dict string number :=
  [ ("clothing", Fin 1.0); ("shoes", Fin 0.9); ("accessories", Fin 0.8);
    ("electronics", Fin 0.7); ("home", Fin 0.6) ].

Definition clickWeightsTable : Dict string number :=
  [ ("view", Fin 1.0); ("click", Fin 2.0); ("add_to_cart", Fin 5.0);
    ("purchase", Fin 10.0); ("wishlist", Fin 3.0); ("share", Fin 2.5) ].

Definition timeWeightsTable : TimeWeights.t :=
  {| TimeWeights.recent := Fin 1.0; TimeWeights.week := Fin 0.8;
     TimeWeights.month := Fin 0.6; TimeWeights.older := Fin 0.3 |}.

(** The constructor's [this.config = { ... }].  Without the option
    [realTimeAdaptation], [this.config.realTimeAdaptation.enabled] is
    [undefined !== false], true.  With it, [true] or [false], the final
    [...config] puts the boolean in the place of the section, whose [enabled]
    is then [undefined]: the adaptation is off. *)
Definition makeConfig (config : Options.t) : Config.t :=
  {| Config.maxHistoryItems := countOr (Options.maxHistoryItems config) 1000;
     Config.categoryWeights :=
       match Options.categoryWeights config with
       | Some w => w
       | None => defaultCategoryWeights
       end;
     Config.clickWeights := clickWeightsTable;
     Config.timeWeights := timeWeightsTable;
     Config.hybridWeight := orElse (Options.hybridWeight config) (Fin 0.7);
     Config.minSimilarUsers := countOr (Options.minSimilarUsers config) 5;
     Config.diversityFactor := orElse (Options.diversityFactor config) (Fin 0.3);
     Config.realTimeAdaptation :=
       match Options.realTimeAdaptation config with
       | Some _ => false
       | None => true
       end |}.

Definition defaultConfig : Config.t := makeConfig Options.empty.

(** ** The engine and its clock *)

(** What a [Date] object answers. *)
Module Date.
Record t : Type := { getTime : Z; getMonth : Z; getHours : Z; getDay : Z }.
End Date.

(** [this.contextualData]: [{}] until [updateContextualData] has run.  Its
    [dayOfWeek], [month], [hour] and [timestamp] are never read. *)
Module ContextualData.
Record t : Type := {
  timeOfDay : option string;
  season : option string;
  isWeekend : option bool
}.
Definition empty : t :=
  {| timeOfDay := None; season := None; isWeekend := None |}.
End ContextualData.

(** The state of a [PersonalizationEngine].  [clock n] is what the [n]-th
    reading of the clock returns; [ticks] counts the readings so far. *)
Record Engine : Type := {
  config : Config.t;
  userProfiles : Dict string Profile.t;
  productCatalog : list Product.t;
  contextualData : ContextualData.t;
  clock : nat -> Date.t;
  ticks : nat
}.

Definition with_userProfiles (v : Dict string Profile.t) (e : Engine) : Engine :=
  {| config := config e; userProfiles := v; productCatalog := productCatalog e;
     contextualData := contextualData e; clock := clock e; ticks := ticks e |}.

Definition with_contextualData (v : ContextualData.t) (e : Engine) : Engine :=
  {| config := config e; userProfiles := userProfiles e;
     productCatalog := productCatalog e; contextualData := v;
     clock := clock e; ticks := ticks e |}.

Definition with_ticks (v : nat) (e : Engine) : Engine :=
  {| config := config e; userProfiles := userProfiles e;
     productCatalog := productCatalog e; contextualData := contextualData e;
     clock := clock e; ticks := v |}.

(** Methods are computations over the engine. *)
Definition M (A : Type) : Type := Engine -> A * Engine.

Definition ret {A} (x : A) : M A := fun e => (x, e).

Definition bind {A B} (m : M A) (k : A -> M B) : M B :=
  fun e => let (x, e') := m e in k x e'.

Notation "x <- m ;; k" := (bind m (fun x => k))
  (at level 61, m at next level, right associativity).
Notation "m ;;; k" := (bind m (fun _ => k))
  (at level 61, right associativity).

Definition this : M Engine := fun e => (e, e).

Definition modify (f : Engine -> Engine) : M unit := fun e => (tt, f e).

(** [for (const x of l) body(x)] with the loop's variables in [acc]. *)
Fixpoint forEachM {A S} (body : S -> A -> M S) (l : list A) (acc : S) : M S :=
  match l with
  | [] => ret acc
  | x :: r => acc' <- body acc x ;; forEachM body r acc'
  end.

(** [new Date()] *)
Definition newDate : M Date.t :=
  fun e => (clock e (ticks e), with_ticks (S (ticks e)) e).

(** [Date.now()] *)
Definition DateNow : M Z := d <- newDate ;; ret (Date.getTime d).

Definition getCurrentTimeOfDay : M string :=
  d <- newDate ;;
  let hour := Date.getHours d in
  ret (if (6 <=? hour)%Z && (hour <? 12)%Z then "morning"
       else if (12 <=? hour)%Z && (hour <? 17)%Z then "afternoon"
       else if (17 <=? hour)%Z && (hour <? 21)%Z then "evening"
       else "night").

Definition getCurrentSeason : M string :=
  d <- newDate ;;
  let month := Date.getMonth d in
  ret (if (2 <=? month)%Z && (month <=? 4)%Z then "spring"
       else if (5 <=? month)%Z && (month <=? 7)%Z then "summer"
       else if (8 <=? month)%Z && (month <=? 10)%Z then "fall"
       else "winter").

Definition updateContextualData : M unit :=
  now <- newDate ;;
  timeOfDay <- getCurrentTimeOfDay ;;
  season <- getCurrentSeason ;;
  _ <- DateNow ;;
  modify (with_contextualData
    {| ContextualData.timeOfDay := Some timeOfDay;
       ContextualData.season := Some season;
       ContextualData.isWeekend :=
         Some ((Date.getDay now =? 0)%Z || (Date.getDay now =? 6)%Z) |}).

(** ** User profiling *)

(** A number read from a property that may be missing, in arithmetic:
    [undefined] converts to [NaN]. *)
Definition toNumber (x : option number) : number :=
  match x with Some v => v | None => NaN end.

(** The object [createNewUserProfile] returns, [now] being its [Date.now()]. *)
Definition newUserProfile (userId : string) (now : Z) : Profile.t :=
  {| Profile.userId := userId;
     Profile.behaviorHistory := [];
     Profile.purchaseHistory := [];
     Profile.categoryAffinities := [];
     Profile.brandAffinities := [];
     Profile.priceRange := {| PriceRange.min := Fin 0; PriceRange.max := PosInf |};
     Profile.preferredPriceRange := None;
     Profile.styleProfile := {| StyleProfile.styles := None; StyleProfile.tags := None |};
     Profile.lastUpdated := now;
     Profile.totalInteractions := 0;
     Profile.conversionRate := Fin 0;
     Profile.averageOrderValue := Fin 0;
     Profile.lifetimeValue := Fin 0 |}.

Definition createNewUserProfile (userId : string) : M Profile.t :=
  now <- DateNow ;;
  ret (newUserProfile userId now).

Definition getUserProfile (userId : string) : M Profile.t :=
  e <- this ;;
  match get userId (userProfiles e) with
  | Some profile => ret profile
  | None =>
      profile <- createNewUserProfile userId ;;
      modify (fun e => with_userProfiles (set userId profile (userProfiles e)) e) ;;;
      ret profile
  end.

(** The profile object is shared with the [userProfiles] map: a method that
    has changed its properties leaves the changed object in the map. *)
Definition putUserProfile (userId : string) (profile : Profile.t) : M unit :=
  modify (fun e => with_userProfiles (set userId profile (userProfiles e)) e).

Definition dayMs : Z := 24 * 60 * 60 * 1000.

Definition calculateTimeWeight (timestamp : Z) : M number :=
  e <- this ;;
  now <- DateNow ;;
  let age := (now - timestamp)%Z in
  let w := Config.timeWeights (config e) in
  ret (if (age <? dayMs)%Z then TimeWeights.recent w
       else if (age <? 7 * dayMs)%Z then TimeWeights.week w
       else if (age <? 30 * dayMs)%Z then TimeWeights.month w
       else TimeWeights.older w).

Definition calculateContextWeight (interaction : Interaction.t) : M number :=
  let weight := Fin 1.0 in
  weight <-
    (if present (Interaction.season interaction) then
       s <- getCurrentSeason ;;
       ret (if same (Some s) (Interaction.season interaction)
            then (weight * Fin 1.2)%js else weight)
     else ret weight) ;;
  (if present (Interaction.timeOfDay interaction) then
     t <- getCurrentTimeOfDay ;;
     ret (if same (Some t) (Interaction.timeOfDay interaction)
          then (weight * Fin 1.1)%js else weight)
   else ret weight).

Definition calculateInteractionWeight (interaction : Interaction.t) (timestamp : Z)
  : M number :=
  e <- this ;;
  let baseWeight :=
    orElse (get (key (Interaction.type interaction)) (Config.clickWeights (config e)))
           (Fin 1.0) in
  timeWeight <- calculateTimeWeight timestamp ;;
  contextWeight <- calculateContextWeight interaction ;;
  ret (baseWeight * timeWeight * contextWeight)%js.

Definition updateCategoryAffinity (cfg : Config.t) (profile : Profile.t)
  (category : string) (interactionType : option string) : Profile.t :=
  let affinities := Profile.categoryAffinities profile in
  let affinities :=
    if falsy (get category affinities) then set category (Fin 0) affinities
    else affinities in
  let weight := orElse (get (key interactionType) (Config.clickWeights cfg)) (Fin 1.0) in
  let categoryWeight := orElse (get category (Config.categoryWeights cfg)) (Fin 1.0) in
  Profile.with_categoryAffinities
    (set category (toNumber (get category affinities) + weight * categoryWeight)%js
         affinities)
    profile.

Definition updateBrandAffinity (cfg : Config.t) (profile : Profile.t)
  (brand : string) (interactionType : option string) : Profile.t :=
  let affinities := Profile.brandAffinities profile in
  let affinities :=
    if falsy (get brand affinities) then set brand (Fin 0) affinities
    else affinities in
  let weight := orElse (get (key interactionType) (Config.clickWeights cfg)) (Fin 1.0) in
  Profile.with_brandAffinities
    (set brand (toNumber (get brand affinities) + weight)%js affinities)
    profile.

(** [prices[i]] for an index computed as a number; [NaN] stands for the
    [undefined] of a position outside the array. *)
Definition at_index (l : list number) (i : number) : number :=
  match Num.index i with
  | Some n => nth n l NaN
  | None => NaN
  end.

(** [l.filter(p => p)] on numbers that may be missing. *)
Fixpoint truthyOnes (l : list (option number)) : list number :=
  match l with
  | [] => []
  | Some v :: r => if Num.truthy v then v :: truthyOnes r else truthyOnes r
  | None :: r => truthyOnes r
  end.

Definition updatePricePreferences (profile : Profile.t) (price : number) : Profile.t :=
  let range := Profile.priceRange profile in
  let min :=
    if negb (Num.truthy (PriceRange.min range)) || (price < PriceRange.min range)%js
    then price else PriceRange.min range in
  let max :=
    if negb (Num.truthy (PriceRange.max range)) || (price > PriceRange.max range)%js
    then price else PriceRange.max range in
  let profile :=
    Profile.with_priceRange {| PriceRange.min := min; PriceRange.max := max |} profile in
  let prices :=
    sort (fun a b => (a - b)%js)
         (truthyOnes (map Purchase.price (Profile.purchaseHistory profile))) in
  if 5 <=? List.length prices then
    let n := Num.ofNat (List.length prices) in
    let p10 := at_index prices (Num.floor (n * Fin 0.1)) in
    let p90 := at_index prices (Num.floor (n * Fin 0.9)) in
    Profile.with_preferredPriceRange
      (Some {| PriceRange.min := p10; PriceRange.max := p90 |}) profile
  else profile.

(** [d[k] = (d[k] || 0) + 1] *)
Definition increment (k : string) (d : Dict string number) : Dict string number :=
  set k (orElse (get k d) (Fin 0) + Fin 1)%js d.

Definition updateStyleProfile (profile : Profile.t) (style : option string)
  (tags : option (list string)) : Profile.t :=
  let sp := Profile.styleProfile profile in
  let styles := match StyleProfile.styles sp with Some d => d | None => [] end in
  let tagCounts := match StyleProfile.tags sp with Some d => d | None => [] end in
  let styles := if present style then increment (key style) styles else styles in
  let tagCounts :=
    match tags with
    | Some l => fold_left (fun d tag => increment tag d) l tagCounts
    | None => tagCounts
    end in
  Profile.with_styleProfile
    {| StyleProfile.styles := Some styles; StyleProfile.tags := Some tagCounts |}
    profile.

Definition updateConversionMetrics (profile : Profile.t) (interaction : Interaction.t)
  : M Profile.t :=
  if same (Interaction.type interaction) (Some "purchase") then
    now <- DateNow ;;
    let purchases :=
      Profile.purchaseHistory profile ++
      [ {| Purchase.productId := Interaction.productId interaction;
           Purchase.price := Interaction.price interaction;
           Purchase.category := Interaction.category interaction;
           Purchase.timestamp := now |} ] in
    let profile := Profile.with_purchaseHistory purchases profile in
    let totalViews :=
      List.length (filter (fun h => same (HistoryEntry.type h) (Some "view"))
                          (Profile.behaviorHistory profile)) in
    let totalPurchases := List.length purchases in
    let profile :=
      Profile.with_conversionRate
        (if 0 <? totalViews
         then (Num.ofNat totalPurchases / Num.ofNat totalViews)%js else Fin 0)
        profile in
    let totalValue :=
      fold_left (fun sum p => (sum + orElse (Purchase.price p) (Fin 0))%js)
                purchases (Fin 0) in
    let profile :=
      Profile.with_averageOrderValue
        (if 0 <? totalPurchases
         then (totalValue / Num.ofNat totalPurchases)%js else Fin 0)
        profile in
    ret (Profile.with_lifetimeValue totalValue profile)
  else ret profile.

(** The statements of [updateUserProfile] between the reading of the clock
    and [updateConversionMetrics], one definition each. *)

(** [profile.behaviorHistory.push({...})] and the limit on the history. *)
Definition addToBehaviorHistory (cfg : Config.t) (interaction : Interaction.t)
  (now : Z) (weight : number) (profile : Profile.t) : Profile.t :=
  let history :=
    Profile.behaviorHistory profile ++
    [ {| HistoryEntry.interaction := interaction;
         HistoryEntry.timestamp := now;
         HistoryEntry.weight := weight |} ] in
  let history :=
    if Config.maxHistoryItems cfg <? List.length history
    then sliceLast (Config.maxHistoryItems cfg) history else history in
  Profile.with_behaviorHistory history profile.

(** [if (interaction.category) this.updateCategoryAffinity(...)] *)
Definition categoryStep (cfg : Config.t) (interaction : Interaction.t)
  (profile : Profile.t) : Profile.t :=
  if present (Interaction.category interaction)
  then updateCategoryAffinity cfg profile (key (Interaction.category interaction))
                              (Interaction.type interaction)
  else profile.

(** [if (interaction.brand) this.updateBrandAffinity(...)] *)
Definition brandStep (cfg : Config.t) (interaction : Interaction.t)
  (profile : Profile.t) : Profile.t :=
  if present (Interaction.brand interaction)
  then updateBrandAffinity cfg profile (key (Interaction.brand interaction))
                           (Interaction.type interaction)
  else profile.

(** [if (interaction.price) this.updatePricePreferences(...)] *)
Definition priceStep (interaction : Interaction.t) (profile : Profile.t) : Profile.t :=
  if negb (falsy (Interaction.price interaction))
  then updatePricePreferences profile (toNumber (Interaction.price interaction))
  else profile.

(** [if (interaction.style || interaction.tags) this.updateStyleProfile(...)] *)
Definition styleStep (interaction : Interaction.t) (profile : Profile.t) : Profile.t :=
  if present (Interaction.style interaction)
     || (match Interaction.tags interaction with Some _ => true | None => false end)
  then updateStyleProfile profile (Interaction.style interaction)
                          (Interaction.tags interaction)
  else profile.

(** [profile.totalInteractions++; profile.lastUpdated = now] *)
Definition countInteraction (now : Z) (profile : Profile.t) : Profile.t :=
  Profile.with_lastUpdated now
    (Profile.with_totalInteractions (S (Profile.totalInteractions profile)) profile).

(** [trackUserInteraction] is this method followed by A/B-test bookkeeping
    that touches no profile.  [saveUserProfiles] writes the map to
    [localStorage] and changes nothing of the engine. *)
Definition updateUserProfile (userId : string) (interaction : Interaction.t)
  : M Profile.t :=
  profile <- getUserProfile userId ;;
  now <- DateNow ;;
  weight <- calculateInteractionWeight interaction now ;;
  e <- this ;;
  let cfg := config e in
  let profile := addToBehaviorHistory cfg interaction now weight profile in
  let profile := categoryStep cfg interaction profile in
  let profile := brandStep cfg interaction profile in
  let profile := priceStep interaction profile in
  let profile := styleStep interaction profile in
  profile <- updateConversionMetrics profile interaction ;;
  let profile := countInteraction now profile in
  putUserProfile userId profile ;;;
  ret profile.

(** ** Collaborative filtering *)

(** The three accumulators of the loop of [calculateCategorySimilarity]. *)
Record Cosine : Type := { dotProduct : number; norm1 : number; norm2 : number }.

Definition calculateCategorySimilarity (profile1 profile2 : Profile.t) : number :=
  let categories1 := keys (Profile.categoryAffinities profile1) in
  let categories2 := keys (Profile.categoryAffinities profile2) in
  let allCategories := SetOf (categories1 ++ categories2) in
  if List.length allCategories =? 0 then Fin 0 else
  let acc :=
    fold_left
      (fun acc category =>
         let affinity1 :=
           orElse (get category (Profile.categoryAffinities profile1)) (Fin 0) in
         let affinity2 :=
           orElse (get category (Profile.categoryAffinities profile2)) (Fin 0) in
         {| dotProduct := (dotProduct acc + affinity1 * affinity2)%js;
            norm1 := (norm1 acc + affinity1 * affinity1)%js;
            norm2 := (norm2 acc + affinity2 * affinity2)%js |})
      allCategories
      {| dotProduct := Fin 0; norm1 := Fin 0; norm2 := Fin 0 |} in
  if (norm1 acc === Fin 0)%js || (norm2 acc === Fin 0)%js then Fin 0
  else (dotProduct acc / (Num.sqrt (norm1 acc) * Num.sqrt (norm2 acc)))%js.

Definition calculateBrandSimilarity (profile1 profile2 : Profile.t) : number :=
  let brands1 := SetOf (keys (Profile.brandAffinities profile1)) in
  let brands2 := SetOf (keys (Profile.brandAffinities profile2)) in
  let intersection := SetOf (filter (fun x => includes x brands2) brands1) in
  let union := SetOf (brands1 ++ brands2) in
  if 0 <? List.length union
  then (Num.ofNat (List.length intersection) / Num.ofNat (List.length union))%js
  else Fin 0.

(** [profile.preferredPriceRange || profile.priceRange].  Every profile the
    engine makes has a [priceRange], so the range is never missing and the
    guard [if (!range1 || !range2) return 0] never fires. *)
Definition effectivePriceRange (profile : Profile.t) : PriceRange.t :=
  match Profile.preferredPriceRange profile with
  | Some range => range
  | None => Profile.priceRange profile
  end.

Definition calculatePriceSimilarity (profile1 profile2 : Profile.t) : number :=
  let range1 := effectivePriceRange profile1 in
  let range2 := effectivePriceRange profile2 in
  let overlap :=
    Num.max (Fin 0)
            (Num.min (PriceRange.max range1) (PriceRange.max range2)
             - Num.max (PriceRange.min range1) (PriceRange.min range2))%js in
  let totalRange :=
    (Num.max (PriceRange.max range1) (PriceRange.max range2)
     - Num.min (PriceRange.min range1) (PriceRange.min range2))%js in
  if (totalRange > Fin 0)%js then (overlap / totalRange)%js else Fin 0.

Definition calculateStyleSimilarity (profile1 profile2 : Profile.t) : number :=
  let styles1 :=
    match StyleProfile.styles (Profile.styleProfile profile1) with
    | Some d => d | None => [] end in
  let styles2 :=
    match StyleProfile.styles (Profile.styleProfile profile2) with
    | Some d => d | None => [] end in
  let allStyles := SetOf (keys styles1 ++ keys styles2) in
  if List.length allStyles =? 0 then Fin 0 else
  let similarity :=
    fold_left
      (fun similarity style =>
         let count1 := orElse (get style styles1) (Fin 0) in
         let count2 := orElse (get style styles2) (Fin 0) in
         (similarity
          + Num.min count1 count2 / Num.max (Num.max count1 count2) (Fin 1))%js)
      allStyles (Fin 0) in
  (similarity / Num.ofNat (List.length allStyles))%js.

(** The weighted average of [calculateUserSimilarity], on the two profiles. *)
Definition similarity (profile1 profile2 : Profile.t) : number :=
  let categorySimilarity := calculateCategorySimilarity profile1 profile2 in
  let brandSimilarity := calculateBrandSimilarity profile1 profile2 in
  let priceSimilarity := calculatePriceSimilarity profile1 profile2 in
  let styleSimilarity := calculateStyleSimilarity profile1 profile2 in
  (categorySimilarity * Fin 0.4
   + brandSimilarity * Fin 0.3
   + priceSimilarity * Fin 0.2
   + styleSimilarity * Fin 0.1)%js.

Definition calculateUserSimilarity (userId1 userId2 : string) : M number :=
  profile1 <- getUserProfile userId1 ;;
  profile2 <- getUserProfile userId2 ;;
  ret (similarity profile1 profile2).

(** An element [{ userId, similarity }] of the result of [findSimilarUsers]. *)
Module SimilarUser.
Record t : Type := { userId : string; similarity : number }.
End SimilarUser.

(** The loop runs over the map while [calculateUserSimilarity] may add the
    profile of [userId] to it.  That is the only entry a run can add, and
    the loop skips it, so the loop is one over the keys the map had. *)
Definition findSimilarUsers (userId : string) (limit : nat) : M (list SimilarUser.t) :=
  e <- this ;;
  similarities <-
    forEachM
      (fun similarities otherUserId =>
         if same otherUserId userId then ret similarities else
         similarity <- calculateUserSimilarity userId otherUserId ;;
         ret (if (similarity > Fin 0.1)%js
              then similarities ++
                   [ {| SimilarUser.userId := otherUserId;
                        SimilarUser.similarity := similarity |} ]
              else similarities))
      (keys (userProfiles e)) [] ;;
  ret (slice0 limit
         (sort (fun a b => (SimilarUser.similarity b - SimilarUser.similarity a)%js)
               similarities)).

(** ** Content-based filtering *)

(** An element [{ product, score }].  [ref] is the identity of the object:
    [includes] in [applyDiversityFilter] compares objects, not contents. *)
Module Scored.
Record t : Type := { ref : nat; product : Product.t; score : number }.
End Scored.

(** The test [product.price >= priceRange.min && product.price <= priceRange.max]
    of [getContentBasedRecommendations]. *)
Definition priceWithinRange (profile : Profile.t) (product : Product.t) : bool :=
  let priceRange := effectivePriceRange profile in
  let price := toNumber (Product.price product) in
  (price >= PriceRange.min priceRange)%js && (price <= PriceRange.max priceRange)%js.

(** The score [getContentBasedRecommendations] gives one product. *)
Definition contentScore (profile : Profile.t) (product : Product.t) : number :=
  let score := Fin 0 in
  let categoryAffinity :=
    orElse (get (key (Product.category product)) (Profile.categoryAffinities profile))
           (Fin 0) in
  let score := (score + categoryAffinity * Fin 0.4)%js in
  let brandAffinity :=
    orElse (get (key (Product.brand product)) (Profile.brandAffinities profile))
           (Fin 0) in
  let score := (score + brandAffinity * Fin 0.3)%js in
  let score :=
    if priceWithinRange profile product then (score + Fin 0.2)%js else score in
  match Product.tags product, StyleProfile.tags (Profile.styleProfile profile) with
  | Some tags, Some counts =>
      let styleScore :=
        (fold_left (fun sum tag => (sum + orElse (get tag counts) (Fin 0))%js)
                   tags (Fin 0)
         / Num.ofNat (List.length tags))%js in
      (score + styleScore * Fin 0.1)%js
  | _, _ => score
  end.

Definition byScoreDescending (a b : Scored.t) : number :=
  (Scored.score b - Scored.score a)%js.

(** The body of [getContentBasedRecommendations] once it has the profile. *)
Definition contentBasedRanking (profile : Profile.t) (products : list Product.t)
  (limit : nat) : list Product.t :=
  let recommendations :=
    fold_left
      (fun recommendations product =>
         let score := contentScore profile product in
         if (score > Fin 0)%js
         then recommendations ++
              [ {| Scored.ref := List.length recommendations;
                   Scored.product := product; Scored.score := score |} ]
         else recommendations)
      products [] in
  map Scored.product (slice0 limit (sort byScoreDescending recommendations)).

Definition getContentBasedRecommendations (userId : string)
  (products : list Product.t) (limit : nat) : M (list Product.t) :=
  profile <- getUserProfile userId ;;
  ret (contentBasedRanking profile products limit).

(** ** Hybrid recommendations *)

(** [products.find(p => p.id === productId)] *)
Definition findProduct (products : list Product.t) (productId : option Z)
  : option Product.t :=
  find (fun p => same (Some (Product.id p)) productId) products.

Definition bySecondDescending (a b : Z * number) : number := (snd b - snd a)%js.

(** [l.filter(x => x)] on products that may be missing. *)
Fixpoint definedOnes {A} (l : list (option A)) : list A :=
  match l with
  | [] => []
  | Some x :: r => x :: definedOnes r
  | None :: r => definedOnes r
  end.

Definition getCollaborativeRecommendations (userId : string)
  (products : list Product.t) (limit : nat) : M (list Product.t) :=
  e <- this ;;
  similarUsers <- findSimilarUsers userId (Config.minSimilarUsers (config e)) ;;
  if List.length similarUsers =? 0 then
    getContentBasedRecommendations userId products limit
  else
    productScores <-
      forEachM
        (fun (productScores : Dict Z number) similar =>
           similarProfile <- getUserProfile (SimilarUser.userId similar) ;;
           ret (fold_left
                  (fun productScores interaction =>
                     if same (HistoryEntry.type interaction) (Some "purchase")
                        || same (HistoryEntry.type interaction) (Some "add_to_cart")
                     then
                       match findProduct products (HistoryEntry.productId interaction) with
                       | Some product =>
                           let score :=
                             (SimilarUser.similarity similar
                              * HistoryEntry.weight interaction)%js in
                           set (Product.id product)
                               (orElse (get (Product.id product) productScores) (Fin 0)
                                + score)%js
                               productScores
                       | None => productScores
                       end
                     else productScores)
                  (Profile.behaviorHistory similarProfile) productScores))
        similarUsers [] ;;
    ret (definedOnes
           (map (fun entry => findProduct products (Some (fst entry)))
                (slice0 limit (sort bySecondDescending (entries productScores))))).

(** The two loops of [applyDiversityFilter], each with its [break]. *)
Fixpoint diversityFirstPass (limit : nat) (maxPerCategory : number)
  (recommendations diverseRecs : list Scored.t) (usedCategories : list (option string))
  : list Scored.t :=
  match recommendations with
  | [] => diverseRecs
  | rec :: rest =>
      if limit <=? List.length diverseRecs then diverseRecs else
      let category := Product.category (Scored.product rec) in
      let categoryCount :=
        List.length (filter (fun c => same c category) usedCategories) in
      if (Num.ofNat categoryCount < maxPerCategory)%js
      then diversityFirstPass limit maxPerCategory rest (diverseRecs ++ [rec])
                              (SetAdd category usedCategories)
      else diversityFirstPass limit maxPerCategory rest diverseRecs usedCategories
  end.

Fixpoint diversitySecondPass (limit : nat)
  (recommendations diverseRecs : list Scored.t) : list Scored.t :=
  match recommendations with
  | [] => diverseRecs
  | rec :: rest =>
      if limit <=? List.length diverseRecs then diverseRecs else
      if negb (includes (Scored.ref rec) (map Scored.ref diverseRecs))
      then diversitySecondPass limit rest (diverseRecs ++ [rec])
      else diversitySecondPass limit rest diverseRecs
  end.

Definition applyDiversityFilter (cfg : Config.t) (recommendations : list Scored.t)
  (limit : nat) : list Scored.t :=
  if List.length recommendations <=? limit then recommendations else
  let diversityFactor := Config.diversityFactor cfg in
  let maxPerCategory := Num.ceil (Num.ofNat limit * diversityFactor)%js in
  let diverseRecs := diversityFirstPass limit maxPerCategory recommendations [] [] in
  let diverseRecs := diversitySecondPass limit recommendations diverseRecs in
  slice0 limit diverseRecs.

(** The rank scores [(length - index) / length] of a list, added into the
    map of combined scores with the given weight. *)
Definition addRankScores (weight : number) (recs : list Product.t)
  (combinedScores : Dict Z number) : Dict Z number :=
  fst (fold_left
         (fun (st : Dict Z number * nat) product =>
            let (combinedScores, index) := st in
            let score :=
              (Num.ofNat (List.length recs - index) / Num.ofNat (List.length recs))%js in
            (set (Product.id product)
                 (orElse (get (Product.id product) combinedScores) (Fin 0)
                  + score * weight)%js
                 combinedScores,
             S index))
         recs (combinedScores, 0)).

(** [entries.map(([productId, score]) => ({ product, score }))
           .filter(item => item.product)]; every object made is a new one,
    [ref] is the position at which it was made. *)
Fixpoint scoredProducts (products : list Product.t) (entries : list (Z * number))
  (next : nat) : list Scored.t :=
  match entries with
  | [] => []
  | (productId, score) :: rest =>
      match findProduct products (Some productId) with
      | Some product =>
          {| Scored.ref := next; Scored.product := product; Scored.score := score |}
          :: scoredProducts products rest (S next)
      | None => scoredProducts products rest (S next)
      end
  end.

Definition getPersonalizedRecommendations (userId : string)
  (products : list Product.t) (limit : nat) : M (list Product.t) :=
  collaborativeRecs <- getCollaborativeRecommendations userId products (limit * 2) ;;
  contentBasedRecs <- getContentBasedRecommendations userId products (limit * 2) ;;
  e <- this ;;
  let hybridWeight := Config.hybridWeight (config e) in
  let combinedScores := addRankScores hybridWeight collaborativeRecs [] in
  let combinedScores :=
    addRankScores (Fin 1 - hybridWeight)%js contentBasedRecs combinedScores in
  let sortedProducts :=
    scoredProducts products (sort bySecondDescending (entries combinedScores)) 0 in
  let diverseRecommendations := applyDiversityFilter (config e) sortedProducts limit in
  ret (map Scored.product diverseRecommendations).

(** ** Contextual adaptation *)

(** An element [{ ...product, contextualBoost: boost }] of the result of
    [applyContextualBoost]; a product that went through no boost has no
    [contextualBoost]. *)
Module Boosted.
Record t : Type := { product : Product.t; contextualBoost : option number }.
End Boosted.

(** [product.tags.includes(tag)] *)
Definition hasTag (tags : list string) (tag : string) : bool := includes tag tags.

(** The [boost] the loop body of [applyContextualBoost] computes. *)
Definition contextualBoostOf (context : ContextualData.t) (product : Product.t)
  : number :=
  let boost := Fin 1.0 in
  let boost :=
    match Product.tags product with
    | Some tags =>
        let boost :=
          if same (ContextualData.timeOfDay context) (Some "morning")
             && hasTag tags "work" then (boost * Fin 1.2)%js else boost in
        let boost :=
          if same (ContextualData.timeOfDay context) (Some "evening")
             && hasTag tags "casual" then (boost * Fin 1.2)%js else boost in
        if match ContextualData.isWeekend context with Some b => b | None => false end
           && hasTag tags "leisure" then (boost * Fin 1.1)%js else boost
    | None => boost
    end in
  let boost :=
    if same (Product.season product) (ContextualData.season context)
    then (boost * Fin 1.3)%js else boost in
  let boost :=
    if same (Product.category product) (Some "outerwear")
       && same (ContextualData.season context) (Some "winter")
    then (boost * Fin 1.4)%js else boost in
  if same (Product.category product) (Some "swimwear")
     && same (ContextualData.season context) (Some "summer")
  then (boost * Fin 1.4)%js else boost.

Definition applyContextualBoost (recommendations : list Product.t) (userId : string)
  : M (list Boosted.t) :=
  _ <- getUserProfile userId ;;
  e <- this ;;
  let context := contextualData e in
  ret (map (fun product =>
              {| Boosted.product := product;
                 Boosted.contextualBoost := Some (contextualBoostOf context product) |})
           recommendations).

(** ** Public API *)

Definition byBoostDescending (a b : Boosted.t) : number :=
  (orElse (Boosted.contextualBoost b) (Fin 1)
   - orElse (Boosted.contextualBoost a) (Fin 1))%js.

(** [getRecommendations(userId, { limit, category, includeContextual })].  The
    filters [priceRange], [style] and [occasion], which read the catalog's
    derived [features], are left at their default [null]. *)
Definition getRecommendations (userId : string) (limit : nat)
  (category : option string) (includeContextual : bool) : M (list Boosted.t) :=
  e <- this ;;
  let products := productCatalog e in
  let products :=
    if present category
    then filter (fun p => same (Product.category p) category) products
    else products in
  recommendations <- getPersonalizedRecommendations userId products limit ;;
  e <- this ;;
  recommendations <-
    (if includeContextual && Config.realTimeAdaptation (config e) then
       boosted <- applyContextualBoost recommendations userId ;;
       ret (sort byBoostDescending boosted)
     else
       ret (map (fun product =>
                   {| Boosted.product := product; Boosted.contextualBoost := None |})
                recommendations)) ;;
  ret (slice0 limit recommendations).

Definition emptyEngine (cfg : Config.t) (clk : nat -> Date.t) : Engine :=
  {| config := cfg; userProfiles := []; productCatalog := [];
     contextualData := ContextualData.empty; clock := clk; ticks := 0 |}.

(** [e'] is [e] but for readings of the clock. *)
Definition ticked (e e' : Engine) : Prop :=
  config e' = config e /\ userProfiles e' = userProfiles e /\
  productCatalog e' = productCatalog e /\
  contextualData e' = contextualData e /\ clock e' = clock e.

(** A method that only reads the clock. *)
Definition reads_clock {A} (m : M A) : Prop := forall e, ticked e (snd (m e)).

(** The amount [updateCategoryAffinity] adds: the click weight of the
    interaction's type times the static weight of the category. *)
Definition categoryGain (cfg : Config.t) (interaction : Interaction.t)
  (category : string) : number :=
  (orElse (get (key (Interaction.type interaction)) (Config.clickWeights cfg)) (Fin 1.0)
   * orElse (get category (Config.categoryWeights cfg)) (Fin 1.0))%js.

(** [d[k] || 0] *)
Definition affinity (d : Dict string number) (k : string) : number :=
  orElse (get k d) (Fin 0).

(** ** Statements about recorded interactions *)

(** The weight [updateUserProfile] stored with the interaction it has just
    recorded: that of the last entry of [behaviorHistory]. *)
Definition storedWeight (profile : Profile.t) : number :=
  last (map HistoryEntry.weight (Profile.behaviorHistory profile)) NaN.

(** The names by which [updateCategoryAffinity] reads the weight tables and
    the affinities, the interaction's type and category, are not inherited
    ones. *)
Definition readsOwnNames (interaction : Interaction.t) : Prop :=
  ownName (key (Interaction.type interaction)) = true /\
  ownName (key (Interaction.category interaction)) = true.

(** The reading of "the affinity of the interaction's category grows by the
    stored weight times the static weight of the category". *)
Definition gain_is_stored_weight (e : Engine) (userId : string)
  (interaction : Interaction.t) : Prop :=
  present (Interaction.category interaction) = true ->
  let category := key (Interaction.category interaction) in
  let profile := fst (updateUserProfile userId interaction e) in
  get category (Profile.categoryAffinities profile)
  = Some (affinity (Profile.categoryAffinities (fst (getUserProfile userId e))) category
          + storedWeight profile
            * orElse (get category (Config.categoryWeights (config e))) (Fin 1.0))%js.

(** A clock stopped at noon of a Wednesday in January. *)
Definition winterClock : nat -> Date.t :=
  fun _ => {| Date.getTime := 1700000000000; Date.getMonth := 0;
              Date.getHours := 12; Date.getDay := 3 |}.

(** [{ type: 'view', productId: 1, category: 'clothing', season: 'winter' }] *)
Definition winterView : Interaction.t :=
  {| Interaction.type := Some "view"; Interaction.productId := Some 1%Z;
     Interaction.category := Some "clothing"; Interaction.brand := None;
     Interaction.price := None; Interaction.style := None;
     Interaction.tags := None; Interaction.season := Some "winter";
     Interaction.timeOfDay := None; Interaction.timestamp := None |}.

(** ** A candidate list for [applyDiversityFilter] *)

Definition candidate (n : nat) (category : string) (score : R) : Scored.t :=
  {| Scored.ref := n;
     Scored.product :=
       {| Product.id := Z.of_nat n; Product.category := Some category;
          Product.brand := None; Product.price := None; Product.tags := None;
          Product.season := None |};
     Scored.score := Fin score |}.

(** Eight candidates in descending order of score: four pairs of shoes, then
    a jacket, a shirt, a bag and a hat. *)
Definition eightCandidates : list Scored.t :=
  [ candidate 1 "shoes" 0.9; candidate 2 "shoes" 0.8; candidate 3 "shoes" 0.7;
    candidate 4 "shoes" 0.6; candidate 5 "jackets" 0.5; candidate 6 "shirts" 0.4;
    candidate 7 "bags" 0.3; candidate 8 "hats" 0.2 ].

(** The categories of a list of recommendations. *)
Definition categoriesOf (recs : list Scored.t) : list (option string) :=
  map (fun rec => Product.category (Scored.product rec)) recs.

(** How often [category] occurs in a list of recommendations. *)
Definition occurrences (category : option string) (recs : list Scored.t) : nat :=
  List.length (filter (fun c => same c category) (categoriesOf recs)).

Definition refs (recs : list Scored.t) : list nat := map Scored.ref recs.

Definition productIds (recs : list Scored.t) : list Z :=
  map (fun rec => Product.id (Scored.product rec)) recs.

(** ** The profiles a method may add *)

(** [e'] is [e] with, at most, a new profile for [userId] added to the map:
    what [getUserProfile userId] can do to the engine, apart from reading
    the clock. *)
Definition grown (userId : string) (e e' : Engine) : Prop :=
  config e' = config e /\
  (forall other, other <> userId ->
     get other (userProfiles e') = get other (userProfiles e)) /\
  (get userId (userProfiles e') = get userId (userProfiles e) \/
   (get userId (userProfiles e) = None /\
    exists now, get userId (userProfiles e') = Some (newUserProfile userId now))).

(** Two profiles that differ in [lastUpdated] at most. *)
Definition sameButLastUpdated (p q : Profile.t) : Prop :=
  Profile.with_lastUpdated 0%Z p = Profile.with_lastUpdated 0%Z q.

(** ** Sums of loops *)

(** [for (k of l) acc += f(k)] *)
Definition total {A} (f : A -> number) (l : list A) (acc : number) : number :=
  fold_left (fun acc k => (acc + f k)%js) l acc.

(** ** A recording of an old interaction *)

(** A clock that starts at 1700000000000 ms and advances by one millisecond
    at every reading. *)
Definition tickingClock : nat -> Date.t :=
  fun n => {| Date.getTime := 1700000000000 + Z.of_nat n; Date.getMonth := 0;
              Date.getHours := 12; Date.getDay := 3 |}.

(** [{ type: 'view', productId: 1, timestamp: 1700000000000 - 3 * dayMs }]: a
    view that took place three days before the clock's start. *)
Definition oldView : Interaction.t :=
  {| Interaction.type := Some "view"; Interaction.productId := Some 1%Z;
     Interaction.category := None; Interaction.brand := None;
     Interaction.price := None; Interaction.style := None;
     Interaction.tags := None; Interaction.season := None;
     Interaction.timeOfDay := None;
     Interaction.timestamp := Some (1700000000000 - 3 * dayMs)%Z |}.

(** ** Statements about the contextual boost *)

(** The multipliers of [applyContextualBoost] that match a product, in the
    order of the source. *)
Definition matchingMultipliers (context : ContextualData.t) (product : Product.t)
  : list R :=
  let tagged (tag : string) :=
    match Product.tags product with
    | Some tags => hasTag tags tag
    | None => false
    end in
  (if same (ContextualData.timeOfDay context) (Some "morning") && tagged "work"
   then [1.2%R] else [])
  ++ (if same (ContextualData.timeOfDay context) (Some "evening") && tagged "casual"
      then [1.2%R] else [])
  ++ (if match ContextualData.isWeekend context with Some b => b | None => false end
         && tagged "leisure"
      then [1.1%R] else [])
  ++ (if same (Product.season product) (ContextualData.season context)
      then [1.3%R] else [])
  ++ (if same (Product.category product) (Some "outerwear")
         && same (ContextualData.season context) (Some "winter")
      then [1.4%R] else [])
  ++ (if same (Product.category product) (Some "swimwear")
         && same (ContextualData.season context) (Some "summer")
      then [1.4%R] else []).

(** The product of a list of multipliers. *)
Definition productOf (multipliers : list R) : R :=
  fold_left Rmult multipliers 1%R.

(** [b.contextualBoost || 1] *)
Definition boostOf (b : Boosted.t) : number :=
  orElse (Boosted.contextualBoost b) (Fin 1).

(** The boosted score of an element of the result, for a given scoring of the
    products. *)
Definition boostedScore (score : Product.t -> number) (b : Boosted.t) : number :=
  (score (Boosted.product b) * boostOf b)%js.

(** In descending order of [f]. *)
Definition descendingBy {A} (f : A -> number) (l : list A) : Prop :=
  StronglySorted (fun a b => (f a >= f b)%js = true) l.

(** The reading of "[applyContextualBoost] returns the list re-sorted in
    descending order of the boosted score". *)
Definition boost_returns_sorted (score : Product.t -> number) (e : Engine)
  (userId : string) (recommendations : list Product.t) : Prop :=
  descendingBy (boostedScore score)
               (fst (applyContextualBoost recommendations userId e)).

Definition plainProduct (id : Z) (category : string) (season : option string)
  : Product.t :=
  {| Product.id := id; Product.category := Some category; Product.brand := None;
     Product.price := None; Product.tags := None; Product.season := season |}.

(** An engine whose contextual snapshot was taken on a winter morning. *)
Definition winterEngine : Engine :=
  {| config := defaultConfig; userProfiles := []; productCatalog := [];
     contextualData :=
       {| ContextualData.timeOfDay := Some "morning";
          ContextualData.season := Some "winter";
          ContextualData.isWeekend := Some false |};
     clock := winterClock; ticks := 0 |}.

(** ** Runs of the engine *)

(** An engine that knows two users, both with a new profile. *)
Definition twoNewUsers : Engine :=
  {| config := defaultConfig;
     userProfiles := [ ("alice", newUserProfile "alice" 0);
                       ("bob", newUserProfile "bob" 0) ];
     productCatalog := []; contextualData := ContextualData.empty;
     clock := winterClock; ticks := 0 |}.

(** A call [trackUserInteraction(userId, interaction)]. *)
Definition Event : Type := (string * Interaction.t)%type.

(** The engine after a sequence of calls. *)
Definition run (events : list Event) (e : Engine) : Engine :=
  fold_left (fun e ev => snd (updateUserProfile (fst ev) (snd ev) e)) events e.

(** The profile [getUserProfile] would return. *)
Definition profileOf (userId : string) (e : Engine) : Profile.t :=
  fst (getUserProfile userId e).

(** Every entry of the dictionary is a number [>= 0]. *)
Definition nonNegative (d : Dict string number) : Prop :=
  forall k v, get k d = Some v -> (v >= Fin 0)%js = true.

(** No weight of the table is negative. *)
Definition noNegativeWeight (d : Dict string number) : Prop :=
  forall k w, get k d = Some w -> (w < Fin 0)%js = false.

(** The event records, for [userId], an interaction carrying [category]. *)
Definition references (ev : Event) (userId category : string) : Prop :=
  fst ev = userId /\ Interaction.category (snd ev) = Some category /\
  category <> "".

(** The reading of "starting from a fresh profile, every entry of
    [categoryAffinities] remains [>= 0]". *)
Definition affinities_stay_nonNegative (e : Engine) (userId : string)
  (events : list Event) : Prop :=
  get userId (userProfiles e) = None ->
  nonNegative (Profile.categoryAffinities (profileOf userId (run events e))).

(** [new PersonalizationEngine({ categoryWeights: { clothing: -1 } })] *)
Definition discountingEngine : Engine :=
  emptyEngine
    (makeConfig
       {| Options.maxHistoryItems := None;
          Options.categoryWeights := Some [("clothing", Fin (-1))];
          Options.hybridWeight := None; Options.minSimilarUsers := None;
          Options.diversityFactor := None; Options.realTimeAdaptation := None |})
    winterClock.

(** ** Statements about the price test *)

(** The reading of "every candidate with a numeric price passes the price
    test of a profile without [preferredPriceRange]". *)
Definition every_price_passes (profile : Profile.t) : Prop :=
  Profile.preferredPriceRange profile = None ->
  forall product price,
    Product.price product = Some (Fin price) ->
    priceWithinRange profile product = true.

(** [{ type: 'view', productId: 1, price: 5000 }] *)
Definition pricedView : Interaction.t :=
  {| Interaction.type := Some "view"; Interaction.productId := Some 1%Z;
     Interaction.category := None; Interaction.brand := None;
     Interaction.price := Some (Fin 5000); Interaction.style := None;
     Interaction.tags := None; Interaction.season := None;
     Interaction.timeOfDay := None; Interaction.timestamp := None |}.

Definition pricedProduct (id : Z) (price : R) : Product.t :=
  {| Product.id := id; Product.category := Some "shirts"; Product.brand := None;
     Product.price := Some (Fin price); Product.tags := None;
     Product.season := None |}.

(** ** Signs and sort keys *)

(** [x > 0], for a number. *)
Definition positive (x : number) : Prop := (x > Fin 0)%js = true.

(** The comparator [(a, b) => key(b) - key(a)] of a descending sort. *)
Definition descendingKey {A} (sortKey : A -> number) (a b : A) : number :=
  (sortKey b - sortKey a)%js.

(** The key of [x] is a real. *)
Definition finiteKey {A} (sortKey : A -> number) (x : A) : Prop :=
  exists r, sortKey x = Fin r.

(** ** Counting the events of a run *)

(** The interactions a run records for [userId], in order. *)
Definition interactionsOf (userId : string) (events : list Event)
  : list Interaction.t :=
  map snd (filter (fun ev => same (fst ev) userId) events).

(** [e'] differs from [e] in [userProfiles] and in readings of the clock at
    most. *)
Definition sameSettings (e e' : Engine) : Prop :=
  config e' = config e /\ productCatalog e' = productCatalog e /\
  contextualData e' = contextualData e /\ clock e' = clock e.

(** ** Statements about the similarity *)

(** The reading of "[similarity(A,B) == similarity(B,A)]", with the equality
    of the program. *)
Definition similarity_is_equal (e : Engine) (userId1 userId2 : string) : Prop :=
  (fst (calculateUserSimilarity userId1 userId2 e)
   === fst (calculateUserSimilarity userId2 userId1 e))%js = true.

(** [profile.styleProfile.styles || {}] *)
Definition stylesOf (profile : Profile.t) : Dict string number :=
  match StyleProfile.styles (Profile.styleProfile profile) with
  | Some d => d
  | None => []
  end.

(** Two lists of keys that are one list, unless one of them is empty: the
    union [[...new Set([...l1, ...l2])]] then lists the keys in the order
    in which [[...new Set([...l2, ...l1])]] does. *)
Definition sameOrder (l1 l2 : list string) : Prop :=
  l1 = l2 \/ l1 = [] \/ l2 = [].

(** The two profiles name their categories in one order, and their styles. *)
Definition sameKeyOrder (p q : Profile.t) : Prop :=
  sameOrder (keys (Profile.categoryAffinities p))
            (keys (Profile.categoryAffinities q)) /\
  sameOrder (keys (stylesOf p)) (keys (stylesOf q)).

(** A profile with affinities for shoes and bags, in that order, and a
    preferred price range. *)
Definition shopper (userId : string) (shoes bags low high : R) : Profile.t :=
  Profile.with_preferredPriceRange
    (Some {| PriceRange.min := Fin low; PriceRange.max := Fin high |})
    (Profile.with_categoryAffinities
       [ ("shoes", Fin shoes); ("bags", Fin bags) ]
       (newUserProfile userId 0)).

Definition twoShoppers : Engine :=
  {| config := defaultConfig;
     userProfiles := [ ("alice", shopper "alice" 2 1 10 100);
                       ("bob", shopper "bob" 1 3 20 80) ];
     productCatalog := []; contextualData := ContextualData.empty;
     clock := winterClock; ticks := 0 |}.

(** ** Statements about [getRecommendations] *)

(** A method that leaves the configuration, the catalog, the contextual
    snapshot and the clock as they are: it may add profiles and read the
    clock. *)
Definition keeps_settings {A} (m : M A) : Prop :=
  forall e, sameSettings e (snd (m e)).

(** The element carries the boost of its product under [context]: the
    product of the multipliers that match. *)
Definition boostedAs (context : ContextualData.t) (b : Boosted.t) : Prop :=
  Boosted.contextualBoost b
  = Some (Fin (productOf (matchingMultipliers context (Boosted.product b)))).

Definition seasonal (id : Z) (price : R) (season : option string) : Product.t :=
  {| Product.id := id; Product.category := Some "shirts"; Product.brand := None;
     Product.price := Some (Fin price); Product.tags := None;
     Product.season := season |}.

(** A shop of two shirts, the second one for the winter, on a winter
    morning. *)
Definition winterShop : Engine :=
  {| config := defaultConfig; userProfiles := [];
     productCatalog := [ seasonal 1 30 None; seasonal 2 40 (Some "winter") ];
     contextualData :=
       {| ContextualData.timeOfDay := Some "morning";
          ContextualData.season := Some "winter";
          ContextualData.isWeekend := Some false |};
     clock := winterClock; ticks := 0 |}.

(** ** Statements about the content score *)

(** The score of a product once [getContentBasedRecommendations] has added
    the category and the brand terms. *)
Definition affinityScore (profile : Profile.t) (product : Product.t) : number :=
  (Fin 0
   + orElse (get (key (Product.category product)) (Profile.categoryAffinities profile))
            (Fin 0) * Fin 0.4
   + orElse (get (key (Product.brand product)) (Profile.brandAffinities profile))
            (Fin 0) * Fin 0.3)%js.

(** The style term, added to [score] when the product has tags and the
    profile has counted some. *)
Definition withStyleScore (profile : Profile.t) (product : Product.t)
  (score : number) : number :=
  match Product.tags product, StyleProfile.tags (Profile.styleProfile profile) with
  | Some tags, Some counts =>
      (score
       + fold_left (fun sum tag => (sum + orElse (get tag counts) (Fin 0))%js)
                   tags (Fin 0)
         / Num.ofNat (List.length tags) * Fin 0.1)%js
  | _, _ => score
  end.

(** The names by which the score reads the profile, the product's category,
    brand and tags, are not inherited ones. *)
Definition scoredByOwnNames (product : Product.t) : Prop :=
  ownName (key (Product.category product)) = true /\
  ownName (key (Product.brand product)) = true /\
  forall tags, Product.tags product = Some tags -> forallb ownName tags = true.

(** * Properties *)

(** ** Evaluating numbers *)

(** [num_eval] runs a closed computation: it decides each comparison of
    reals it meets with [lra]. *)
Arguments Num.Rltb : simpl never.
Arguments Num.Reqb : simpl never.

Lemma Rltb_true a b : (a < b)%R -> Num.Rltb a b = true.
Proof. intros. unfold Num.Rltb. destruct (Rlt_dec a b); [reflexivity | contradiction]. Qed.

Lemma Rltb_false a b : (b <= a)%R -> Num.Rltb a b = false.
Proof. intros. unfold Num.Rltb. destruct (Rlt_dec a b); [lra | reflexivity]. Qed.

Lemma Reqb_true a b : a = b -> Num.Reqb a b = true.
Proof. intros. unfold Num.Reqb. destruct (Req_dec_T a b); [reflexivity | contradiction]. Qed.

Lemma Reqb_false a b : a <> b -> Num.Reqb a b = false.
Proof. intros. unfold Num.Reqb. destruct (Req_dec_T a b); [contradiction | reflexivity]. Qed.

Ltac rbool :=
  match goal with
  | |- context [Num.Reqb ?a ?b] =>
      first [ rewrite (@Reqb_true a b) by lra | rewrite (@Reqb_false a b) by lra ]
  | |- context [Num.Rltb ?a ?b] =>
      first [ rewrite (@Rltb_true a b) by lra | rewrite (@Rltb_false a b) by lra ]
  end.

Ltac num_eval :=
  cbn; repeat (progress (unfold Num.ge, Num.le, Num.gt; cbn) || (rbool; cbn)).


(** Closes an equation between two evaluated values that differ by
    arithmetic on reals only. *)
Ltac num_eq := repeat (f_equal; try lra).

Lemma same_refl {A} `{EqDec A} (x : A) : same x x = true.
Proof. unfold same. destruct (eq_dec x x); congruence. Qed.

Lemma same_true {A} `{EqDec A} (x y : A) : same x y = true <-> x = y.
Proof. unfold same. destruct (eq_dec x y); split; congruence. Qed.

Lemma same_false {A} `{EqDec A} (x y : A) : same x y = false <-> x <> y.
Proof. unfold same. destruct (eq_dec x y); split; congruence. Qed.

Lemma get_set_same {K V} `{EqDec K} (k : K) (v : V) (d : Dict K V) :
  get k (set k v d) = Some v.
Proof.
  induction d as [|[k' v'] d IH]; simpl.
  - now rewrite same_refl.
  - destruct (same k k') eqn:E; simpl.
    + now rewrite same_refl.
    + now rewrite E.
Qed.

Lemma get_set_other {K V} `{EqDec K} (k k' : K) (v : V) (d : Dict K V) :
  k <> k' -> get k' (set k v d) = get k' d.
Proof.
  intros Hne. induction d as [|[k0 v0] d IH]; simpl.
  - apply not_eq_sym, same_false in Hne. now rewrite Hne.
  - destruct (same k k0) eqn:E; simpl.
    + apply same_true in E. subst k0.
      apply not_eq_sym, same_false in Hne. now rewrite Hne.
    + destruct (same k' k0); auto.
Qed.

(** ** Similarity of two new profiles *)

Lemma price_similarity_unbounded_ranges (p1 p2 : Profile.t) (a b : R) :
  effectivePriceRange p1 = {| PriceRange.min := Fin a; PriceRange.max := PosInf |} ->
  effectivePriceRange p2 = {| PriceRange.min := Fin b; PriceRange.max := PosInf |} ->
  calculatePriceSimilarity p1 p2 = NaN.
Proof.
  intros H1 H2. unfold calculatePriceSimilarity. rewrite H1, H2. cbn.
  destruct (Num.Rltb a b), (Num.Rltb b a); reflexivity.
Qed.

Lemma add_NaN_r (x : number) : (x + NaN)%js = NaN.
Proof. now destruct x. Qed.

Lemma similarity_NaN (p1 p2 : Profile.t) :
  calculatePriceSimilarity p1 p2 = NaN -> similarity p1 p2 = NaN.
Proof.
  intros H. unfold similarity. rewrite H. cbn [Num.mul].
  now rewrite add_NaN_r.
Qed.

(** C1 (failing input).  On an engine without profiles, the similarity of any
    two users is [NaN]: both get a new profile, whose price range is
    [{min: 0, max: Infinity}]; the overlap and the total range are both
    [Infinity], the guard [totalRange > 0] lets the division through, and
    [Infinity / Infinity] is [NaN]. *)
Theorem similarity_of_new_users_is_NaN :
  forall cfg clk userId1 userId2,
    fst (calculateUserSimilarity userId1 userId2 (emptyEngine cfg clk)) = NaN.
Proof.
  intros cfg clk u1 u2.
  unfold calculateUserSimilarity, getUserProfile, bind, this, emptyEngine. cbn.
  destruct (same u2 u1) eqn:E; cbn; try rewrite E; cbn;
    apply similarity_NaN;
    now apply price_similarity_unbounded_ranges with (a := 0%R) (b := 0%R).
Qed.

(** ** What a method changes in the engine *)

Lemma ticked_refl e : ticked e e.
Proof. repeat split. Qed.

Lemma ticked_trans e1 e2 e3 : ticked e1 e2 -> ticked e2 e3 -> ticked e1 e3.
Proof. unfold ticked. intuition congruence. Qed.

Lemma reads_clock_ret {A} (x : A) : reads_clock (ret x).
Proof. intros e. apply ticked_refl. Qed.

Lemma reads_clock_bind {A B} (m : M A) (k : A -> M B) :
  reads_clock m -> (forall x, reads_clock (k x)) -> reads_clock (bind m k).
Proof.
  intros Hm Hk e. unfold bind. specialize (Hm e).
  destruct (m e) as [x e1]. eapply ticked_trans; [exact Hm | apply Hk].
Qed.

Lemma reads_clock_this : reads_clock this.
Proof. intros e. apply ticked_refl. Qed.

Lemma reads_clock_newDate : reads_clock newDate.
Proof. intros e. repeat split. Qed.

Create HintDb clock discriminated.
#[export] Hint Resolve reads_clock_ret reads_clock_this reads_clock_newDate : clock.

Ltac clock :=
  repeat first
    [ apply reads_clock_bind; [| intros ? ]
    | match goal with |- reads_clock (if ?c then _ else _) => destruct c end
    | solve [ auto with clock ] ].

Lemma reads_clock_DateNow : reads_clock DateNow.
Proof. unfold DateNow. clock. Qed.

Lemma reads_clock_getCurrentSeason : reads_clock getCurrentSeason.
Proof. unfold getCurrentSeason. clock. Qed.

Lemma reads_clock_getCurrentTimeOfDay : reads_clock getCurrentTimeOfDay.
Proof. unfold getCurrentTimeOfDay. clock. Qed.

#[export] Hint Resolve reads_clock_DateNow reads_clock_getCurrentSeason
  reads_clock_getCurrentTimeOfDay : clock.

Lemma reads_clock_calculateTimeWeight t : reads_clock (calculateTimeWeight t).
Proof. unfold calculateTimeWeight. clock. Qed.

Lemma reads_clock_calculateContextWeight i : reads_clock (calculateContextWeight i).
Proof. unfold calculateContextWeight. clock. Qed.

#[export] Hint Resolve reads_clock_calculateTimeWeight
  reads_clock_calculateContextWeight : clock.

Lemma reads_clock_calculateInteractionWeight i t :
  reads_clock (calculateInteractionWeight i t).
Proof. unfold calculateInteractionWeight. clock. Qed.

Lemma reads_clock_updateConversionMetrics p i :
  reads_clock (updateConversionMetrics p i).
Proof. unfold updateConversionMetrics. clock. Qed.

#[export] Hint Resolve reads_clock_calculateInteractionWeight
  reads_clock_updateConversionMetrics : clock.

(** [getUserProfile] returns the profile of the map, or a new one that it
    adds to the map. *)
Lemma getUserProfile_found e userId profile :
  get userId (userProfiles e) = Some profile ->
  getUserProfile userId e = (profile, e).
Proof. intros H. unfold getUserProfile, bind, this. now rewrite H. Qed.

Lemma getUserProfile_new e userId :
  get userId (userProfiles e) = None ->
  getUserProfile userId e =
  (newUserProfile userId (Date.getTime (clock e (ticks e))),
   with_userProfiles
     (set userId (newUserProfile userId (Date.getTime (clock e (ticks e))))
          (userProfiles e))
     (with_ticks (S (ticks e)) e)).
Proof. intros H. unfold getUserProfile, bind, this. now rewrite H. Qed.

Lemma getUserProfile_config e userId :
  config (snd (getUserProfile userId e)) = config e.
Proof.
  destruct (get userId (userProfiles e)) eqn:E.
  - now rewrite (getUserProfile_found _ _ E).
  - now rewrite (getUserProfile_new _ _ E).
Qed.

(** After [getUserProfile] the profile returned is the one of the map. *)
Lemma getUserProfile_stored e userId :
  get userId (userProfiles (snd (getUserProfile userId e)))
  = Some (fst (getUserProfile userId e)).
Proof.
  destruct (get userId (userProfiles e)) eqn:E.
  - now rewrite (getUserProfile_found _ _ E).
  - rewrite (getUserProfile_new _ _ E). cbn. apply get_set_same.
Qed.

Lemma getUserProfile_others e userId other :
  userId <> other ->
  get other (userProfiles (snd (getUserProfile userId e)))
  = get other (userProfiles e).
Proof.
  intros Hne. destruct (get userId (userProfiles e)) eqn:E.
  - now rewrite (getUserProfile_found _ _ E).
  - rewrite (getUserProfile_new _ _ E). cbn. now apply get_set_other.
Qed.

(** The run of [updateUserProfile], step by step. *)
Lemma updateUserProfile_run e userId interaction :
  exists now weight e2 e3 profile',
    ticked (snd (getUserProfile userId e)) e2 /\ ticked e2 e3 /\
    updateConversionMetrics
      (styleStep interaction
         (priceStep interaction
            (brandStep (config e) interaction
               (categoryStep (config e) interaction
                  (addToBehaviorHistory (config e) interaction now weight
                     (fst (getUserProfile userId e)))))))
      interaction e2 = (profile', e3) /\
    updateUserProfile userId interaction e
    = (countInteraction now profile',
       with_userProfiles
         (set userId (countInteraction now profile') (userProfiles e3)) e3).
Proof.
  unfold updateUserProfile, bind at 1 2 3.
  pose proof (getUserProfile_config e userId) as Hcfg.
  destruct (getUserProfile userId e) as [p0 e0]. cbn [fst snd] in *.
  pose proof (reads_clock_DateNow e0) as H1.
  destruct (DateNow e0) as [now e1]. cbn [snd] in H1.
  pose proof (reads_clock_calculateInteractionWeight interaction now e1) as H2.
  destruct (calculateInteractionWeight interaction now e1) as [weight e2].
  cbn [snd] in H2.
  assert (T : ticked e0 e2) by (eapply ticked_trans; eauto).
  assert (C : config e2 = config e) by (destruct T as [T _]; congruence).
  unfold bind, this. rewrite C.
  match goal with |- context [updateConversionMetrics ?p ?i e2] =>
    pose proof (reads_clock_updateConversionMetrics p i e2) as H3;
    destruct (updateConversionMetrics p i e2) as [profile' e3] eqn:E3
  end.
  cbn [snd] in H3.
  exists now, weight, e2, e3, profile'. repeat split; auto; apply T || apply H3.
Qed.

(** ** What a step of [updateUserProfile] changes in the profile *)

Ltac frame :=
  intros;
  unfold addToBehaviorHistory, categoryStep, brandStep, priceStep, styleStep,
    countInteraction, updateCategoryAffinity, updateBrandAffinity,
    updatePricePreferences, updateStyleProfile;
  repeat match goal with
  | |- context [if ?c then _ else _] => destruct c
  end; reflexivity.

Lemma updateConversionMetrics_frame profile interaction e :
  let profile' := fst (updateConversionMetrics profile interaction e) in
  Profile.categoryAffinities profile' = Profile.categoryAffinities profile /\
  Profile.brandAffinities profile' = Profile.brandAffinities profile /\
  Profile.priceRange profile' = Profile.priceRange profile /\
  Profile.preferredPriceRange profile' = Profile.preferredPriceRange profile /\
  Profile.behaviorHistory profile' = Profile.behaviorHistory profile /\
  Profile.styleProfile profile' = Profile.styleProfile profile.
Proof.
  unfold updateConversionMetrics.
  destruct (same (Interaction.type interaction) (Some "purchase")); cbn;
    repeat split.
Qed.

Section CategoryFrame.
Variables (cfg : Config.t) (i : Interaction.t) (now : Z) (w : number) (p : Profile.t).

Lemma addToBehaviorHistory_categoryAffinities :
  Profile.categoryAffinities (addToBehaviorHistory cfg i now w p)
  = Profile.categoryAffinities p.
Proof. frame. Qed.

Lemma brandStep_categoryAffinities :
  Profile.categoryAffinities (brandStep cfg i p) = Profile.categoryAffinities p.
Proof. frame. Qed.

Lemma priceStep_categoryAffinities :
  Profile.categoryAffinities (priceStep i p) = Profile.categoryAffinities p.
Proof. frame. Qed.

Lemma styleStep_categoryAffinities :
  Profile.categoryAffinities (styleStep i p) = Profile.categoryAffinities p.
Proof. frame. Qed.

Lemma countInteraction_categoryAffinities :
  Profile.categoryAffinities (countInteraction now p) = Profile.categoryAffinities p.
Proof. frame. Qed.

End CategoryFrame.

(** The category affinities [updateUserProfile] leaves are those of the one
    statement [if (interaction.category) this.updateCategoryAffinity(...)]. *)
Lemma updateUserProfile_categoryAffinities e userId interaction :
  Profile.categoryAffinities (fst (updateUserProfile userId interaction e))
  = Profile.categoryAffinities
      (categoryStep (config e) interaction (fst (getUserProfile userId e))).
Proof.
  destruct (updateUserProfile_run e userId interaction)
    as (now & w & e2 & e3 & p' & _ & _ & Hconv & Hrun).
  rewrite Hrun. cbn [fst].
  rewrite countInteraction_categoryAffinities.
  pose proof (updateConversionMetrics_frame
    (styleStep interaction (priceStep interaction (brandStep (config e) interaction
      (categoryStep (config e) interaction
        (addToBehaviorHistory (config e) interaction now w
          (fst (getUserProfile userId e)))))))
    interaction e2) as F.
  rewrite Hconv in F. cbn [fst] in F. destruct F as [F _]. rewrite F.
  rewrite styleStep_categoryAffinities, priceStep_categoryAffinities,
    brandStep_categoryAffinities.
  unfold categoryStep.
  destruct (present (Interaction.category interaction)).
  - unfold updateCategoryAffinity.
    now rewrite addToBehaviorHistory_categoryAffinities.
  - apply addToBehaviorHistory_categoryAffinities.
Qed.

Lemma toNumber_initialised (d : Dict string number) (k : string) :
  toNumber (get k (if falsy (get k d) then set k (Fin 0) d else d)) = affinity d k.
Proof.
  unfold affinity, orElse, falsy. destruct (get k d) as [v|] eqn:E.
  - destruct (Num.truthy v) eqn:T; cbn.
    + now rewrite E.
    + rewrite get_set_same. reflexivity.
  - cbn. now rewrite get_set_same.
Qed.

Lemma updateCategoryAffinity_get cfg profile category type :
  get category (Profile.categoryAffinities
                  (updateCategoryAffinity cfg profile category type))
  = Some (affinity (Profile.categoryAffinities profile) category
          + orElse (get (key type) (Config.clickWeights cfg)) (Fin 1.0)
            * orElse (get category (Config.categoryWeights cfg)) (Fin 1.0))%js.
Proof.
  unfold updateCategoryAffinity. cbn [Profile.categoryAffinities Profile.with_categoryAffinities].
  rewrite get_set_same. now rewrite toNumber_initialised.
Qed.

Lemma set_get_id {K V} `{EqDec K} (k k' : K) (v : V) (d : Dict K V) :
  get k' (set k v d) = if same k' k then Some v else get k' d.
Proof.
  destruct (same k' k) eqn:E.
  - apply same_true in E. subst. apply get_set_same.
  - apply same_false in E. now apply get_set_other.
Qed.

Lemma updateCategoryAffinity_other cfg profile category type other :
  other <> category ->
  get other (Profile.categoryAffinities
               (updateCategoryAffinity cfg profile category type))
  = get other (Profile.categoryAffinities profile).
Proof.
  intros Hne. unfold updateCategoryAffinity.
  cbn [Profile.categoryAffinities Profile.with_categoryAffinities].
  rewrite get_set_other by congruence.
  destruct (falsy _); [rewrite get_set_other by congruence |]; reflexivity.
Qed.

(** ** The gain of a category affinity *)

(** C2 (as stated, refuted).  A view of a clothing product recorded in
    winter with [season: 'winter'] is stored with the weight
    [1.0 * 1.0 * 1.2 = 1.2], while the affinity of [clothing] grows by
    [1.0 * 1.0 = 1]. *)
Lemma gain_is_not_stored_weight :
  ~ (forall e userId interaction, gain_is_stored_weight e userId interaction).
Proof.
  intros H.
  specialize (H (emptyEngine defaultConfig winterClock) "u" winterView eq_refl).
  revert H. num_eval. intros H. injection H. lra.
Qed.

(** C2 (amended).  For every engine, user and interaction carrying a
    category, the type and the category being no names inherited from
    [Object.prototype], [updateUserProfile] increases
    [categoryAffinities[category]] (read as [0] when it was missing) by
    exactly [clickWeights[interaction.type] || 1.0] times
    [categoryWeights[category] || 1.0]: the base weight of the interaction's
    type alone, without the time and context factors of the stored weight. *)
Theorem category_gain_is_base_weight :
  forall e userId interaction,
    present (Interaction.category interaction) = true ->
    readsOwnNames interaction ->
    let category := key (Interaction.category interaction) in
    get category
        (Profile.categoryAffinities (fst (updateUserProfile userId interaction e)))
    = Some (affinity (Profile.categoryAffinities (fst (getUserProfile userId e)))
                     category
            + categoryGain (config e) interaction category)%js.
Proof.
  intros e userId interaction Hp _ category.
  rewrite updateUserProfile_categoryAffinities.
  unfold categoryStep. rewrite Hp.
  apply updateCategoryAffinity_get.
Qed.

Lemma category_gain_is_base_weight_witness :
  present (Interaction.category winterView) = true /\
  readsOwnNames winterView /\
  get "clothing"
      (Profile.categoryAffinities
         (fst (updateUserProfile "u" winterView (emptyEngine defaultConfig winterClock))))
  = Some (affinity
            (Profile.categoryAffinities
               (fst (getUserProfile "u" (emptyEngine defaultConfig winterClock))))
            "clothing"
          + categoryGain defaultConfig winterView "clothing")%js.
Proof.
  split; [reflexivity |]. split; [split; reflexivity |].
  exact (@category_gain_is_base_weight
           (emptyEngine defaultConfig winterClock) "u" winterView eq_refl
           (conj eq_refl eq_refl)).
Defined.

(** ** Sets, dictionaries and sorted arrays *)

Lemma includes_In {A} `{EqDec A} (x : A) (l : list A) :
  includes x l = true <-> In x l.
Proof.
  induction l as [|y l IH]; simpl.
  - split; [discriminate | tauto].
  - rewrite orb_true_iff, IH, same_true. intuition congruence.
Qed.

Lemma includes_not_In {A} `{EqDec A} (x : A) (l : list A) :
  includes x l = false <-> ~ In x l.
Proof.
  rewrite <- includes_In. destruct (includes x l); split; congruence.
Qed.

Lemma uniq_In {A} `{EqDec A} (x : A) (l seen : list A) :
  In x (uniq seen l) <-> In x l /\ ~ In x seen.
Proof.
  revert seen. induction l as [|y l IH]; intros seen; simpl.
  - tauto.
  - destruct (includes y seen) eqn:E.
    + apply includes_In in E. rewrite IH. intuition congruence.
    + apply includes_not_In in E. simpl. rewrite IH. simpl.
      destruct (eq_dec y x) as [->|Hne]; intuition.
Qed.

Lemma uniq_NoDup {A} `{EqDec A} (l seen : list A) : NoDup (uniq seen l).
Proof.
  revert seen. induction l as [|y l IH]; intros seen; simpl.
  - constructor.
  - destruct (includes y seen); [apply IH |].
    constructor; [| apply IH].
    rewrite uniq_In. simpl. tauto.
Qed.

Lemma SetOf_In {A} `{EqDec A} (x : A) (l : list A) : In x (SetOf l) <-> In x l.
Proof. unfold SetOf. rewrite uniq_In. simpl. tauto. Qed.

Lemma SetOf_NoDup {A} `{EqDec A} (l : list A) : NoDup (SetOf l).
Proof. apply uniq_NoDup. Qed.

Lemma keys_NoDup {K V} `{EqDec K} (d : Dict K V) : NoDup (keys d).
Proof. apply SetOf_NoDup. Qed.

(** A [Set] made of a list without repetition is that list. *)
Lemma uniq_id {A} `{EqDec A} (l seen : list A) :
  NoDup l -> (forall x, In x l -> ~ In x seen) -> uniq seen l = l.
Proof.
  revert seen. induction l as [|y l IH]; intros seen Hnd Hs; simpl; [reflexivity |].
  inversion Hnd; subst.
  destruct (includes y seen) eqn:E.
  - apply includes_In in E. exfalso. apply (Hs y); simpl; auto.
  - f_equal. apply IH; auto.
    intros x Hx [->|Hin]; [contradiction | apply (Hs x); simpl; auto].
Qed.

Lemma SetOf_id {A} `{EqDec A} (l : list A) : NoDup l -> SetOf l = l.
Proof. intros. apply uniq_id; auto. Qed.

Lemma SetAdd_NoDup {A} `{EqDec A} (x : A) (s : list A) :
  NoDup s -> NoDup (SetAdd x s).
Proof.
  intros Hs. unfold SetAdd. destruct (includes x s) eqn:E; [assumption |].
  apply includes_not_In in E.
  apply NoDup_app; auto. constructor; [simpl; tauto | constructor].
  intros y Hy [->|[]]. contradiction.
Qed.

Lemma entriesOf_keys {K V} `{EqDec K} (ks : list K) (d : Dict K V) :
  NoDup ks -> NoDup (map fst (entriesOf ks d)).
Proof.
  induction 1 as [|k ks Hk Hnd IH]; simpl; [constructor |].
  destruct (get k d); [| exact IH].
  simpl. constructor; [| exact IH].
  intros Hin. apply Hk. clear - Hin.
  induction ks as [|k' ks IH]; simpl in *; [tauto |].
  destruct (get k' d); simpl in *; intuition.
Qed.

Lemma entries_NoDup {K V} `{EqDec K} (d : Dict K V) : NoDup (map fst (entries d)).
Proof. apply entriesOf_keys, keys_NoDup. Qed.

Section SortFacts.
Context {A : Type} (compareFn : A -> A -> number).

Lemma insert_perm (x : A) (l : list A) : Permutation (x :: l) (insert compareFn x l).
Proof.
  induction l as [|y l IH]; cbn [insert]; [reflexivity |].
  destruct (compareFn x y > Fin 0)%js; [| reflexivity].
  rewrite perm_swap. now apply perm_skip.
Qed.

Lemma sort_perm (l : list A) : Permutation l (sort compareFn l).
Proof.
  induction l as [|x l IH]; simpl; [reflexivity |].
  rewrite <- insert_perm. now apply perm_skip.
Qed.

Lemma sort_length (l : list A) : List.length (sort compareFn l) = List.length l.
Proof. symmetry. apply Permutation_length, sort_perm. Qed.

Lemma sort_NoDup_map {B} (f : A -> B) (l : list A) :
  NoDup (map f l) -> NoDup (map f (sort compareFn l)).
Proof.
  apply Permutation_NoDup, Permutation_map, sort_perm.
Qed.

End SortFacts.

Lemma slice0_length {A} (n : nat) (l : list A) : List.length (slice0 n l) <= n.
Proof. unfold slice0. apply firstn_le_length. Qed.

Lemma slice0_In {A} (n : nat) (l : list A) (x : A) : In x (slice0 n l) -> In x l.
Proof.
  unfold slice0. revert n. induction l as [|y l IH]; intros [|n]; simpl; try tauto.
  intros [->|Hin]; [auto | right; eauto].
Qed.

Lemma slice0_NoDup_map {A B} (f : A -> B) (n : nat) (l : list A) :
  NoDup (map f l) -> NoDup (map f (slice0 n l)).
Proof.
  unfold slice0. revert n.
  induction l as [|y l IH]; intros [|n] Hnd; simpl; try constructor.
  - inversion Hnd; subst. intros Hin. apply H1.
    apply in_map_iff in Hin. destruct Hin as (z & Hz & Hin).
    apply in_map_iff. exists z. split; [assumption |].
    now apply (@slice0_In _ n l z).
  - inversion Hnd; subst. now apply IH.
Qed.

(** ** Hybrid recommendations: at most [limit], no product twice *)

Lemma firstPass_In limit maxPer recs diverse used x :
  In x (diversityFirstPass limit maxPer recs diverse used) ->
  In x diverse \/ In x recs.
Proof.
  revert diverse used. induction recs as [|rec rest IH]; intros diverse used;
    cbn [diversityFirstPass]; [tauto |].
  destruct (limit <=? List.length diverse); [tauto |].
  destruct (Num.lt _ _); intros Hin; apply IH in Hin.
  - rewrite in_app_iff in Hin. simpl in *. tauto.
  - simpl. tauto.
Qed.

Lemma firstPass_NoDup limit maxPer recs diverse used :
  NoDup (refs (diverse ++ recs)) ->
  NoDup (refs (diversityFirstPass limit maxPer recs diverse used)).
Proof.
  unfold refs.
  revert diverse used. induction recs as [|rec rest IH]; intros diverse used Hnd;
    cbn [diversityFirstPass].
  - now rewrite app_nil_r in Hnd.
  - destruct (limit <=? List.length diverse).
    + rewrite map_app in Hnd. now apply NoDup_app_remove_r in Hnd.
    + destruct (Num.lt _ _); apply IH.
      * now rewrite <- app_assoc.
      * rewrite map_app in *. cbn [map] in Hnd.
        now apply NoDup_remove_1 in Hnd.
Qed.

Lemma secondPass_In limit recs diverse x :
  In x (diversitySecondPass limit recs diverse) -> In x diverse \/ In x recs.
Proof.
  revert diverse. induction recs as [|rec rest IH]; intros diverse;
    cbn [diversitySecondPass]; [tauto |].
  destruct (limit <=? List.length diverse); [tauto |].
  destruct (negb _); intros Hin; apply IH in Hin.
  - rewrite in_app_iff in Hin. simpl in *. tauto.
  - simpl. tauto.
Qed.

Lemma secondPass_NoDup limit recs diverse :
  NoDup (refs diverse) -> NoDup (refs (diversitySecondPass limit recs diverse)).
Proof.
  unfold refs.
  revert diverse. induction recs as [|rec rest IH]; intros diverse Hnd;
    cbn [diversitySecondPass]; [assumption |].
  destruct (limit <=? List.length diverse); [assumption |].
  destruct (includes (Scored.ref rec) (map Scored.ref diverse)) eqn:E;
    cbn [negb]; apply IH; [assumption |].
  apply includes_not_In in E.
  rewrite map_app. apply NoDup_app; auto.
  - constructor; [simpl; tauto | constructor].
  - intros y Hy [<-|[]]. contradiction.
Qed.

Lemma applyDiversityFilter_length cfg recs limit :
  List.length (applyDiversityFilter cfg recs limit) <= limit.
Proof.
  unfold applyDiversityFilter.
  destruct (List.length recs <=? limit) eqn:E.
  - now apply Nat.leb_le.
  - apply slice0_length.
Qed.

Lemma applyDiversityFilter_In cfg recs limit x :
  In x (applyDiversityFilter cfg recs limit) -> In x recs.
Proof.
  unfold applyDiversityFilter.
  destruct (List.length recs <=? limit); [tauto |].
  intros Hin. apply slice0_In, secondPass_In in Hin.
  destruct Hin as [Hin|Hin]; [| assumption].
  apply firstPass_In in Hin. simpl in Hin. tauto.
Qed.

Lemma applyDiversityFilter_NoDup cfg recs limit :
  NoDup (refs recs) -> NoDup (refs (applyDiversityFilter cfg recs limit)).
Proof.
  intros Hnd. unfold applyDiversityFilter.
  destruct (List.length recs <=? limit); [assumption |].
  apply slice0_NoDup_map, secondPass_NoDup, firstPass_NoDup. exact Hnd.
Qed.

(** A function that is injective on a list maps its sublists without
    repetition to lists without repetition. *)
Lemma NoDup_map_within {A B C} (f : A -> B) (g : A -> C) (l out : list A) :
  NoDup (map f l) -> NoDup (map g out) -> (forall x, In x out -> In x l) ->
  NoDup (map f out).
Proof.
  intros Hl Hout Hin.
  induction out as [|x out IH]; simpl; [constructor |].
  inversion Hout; subst.
  constructor.
  - intros Hx. apply in_map_iff in Hx. destruct Hx as (y & Hfy & Hy).
    assert (y = x).
    { assert (Hyl : In y l) by (apply Hin; simpl; auto).
      assert (Hxl : In x l) by (apply Hin; simpl; auto).
      clear - Hl Hfy Hyl Hxl.
      induction l as [|z l IH]; simpl in *; [tauto |].
      inversion Hl; subst.
      destruct Hyl as [->|Hyl], Hxl as [->|Hxl]; auto.
      - exfalso. apply H1. rewrite Hfy. now apply in_map.
      - exfalso. apply H1. rewrite <- Hfy. now apply in_map. }
    subst y. apply H1. now apply in_map.
  - apply IH; auto. intros y Hy. apply Hin. simpl. auto.
Qed.

Lemma findProduct_id products productId product :
  findProduct products (Some productId) = Some product ->
  Product.id product = productId.
Proof.
  unfold findProduct. intros H. apply find_some in H. destruct H as [_ H].
  apply same_true in H. congruence.
Qed.

Lemma scoredProducts_refs products entries next :
  NoDup (refs (scoredProducts products entries next)) /\
  forall rec, In rec (scoredProducts products entries next) -> next <= Scored.ref rec.
Proof.
  revert next. induction entries as [|[productId score] rest IH]; intros next;
    cbn [scoredProducts].
  - split; [constructor | simpl; tauto].
  - destruct (IH (S next)) as [Hnd Hge].
    destruct (findProduct products (Some productId)); [| split; auto].
    + split.
      * unfold refs in *. cbn [map Scored.ref]. constructor; [| assumption].
        intros Hin. apply in_map_iff in Hin. destruct Hin as (r & Hr & Hin).
        apply Hge in Hin. lia.
      * intros rec [<-|Hin]; [simpl; lia | apply Hge in Hin; lia].
    + intros rec Hin. apply Hge in Hin. lia.
Qed.

Lemma scoredProducts_ids products entries next :
  NoDup (map fst entries) ->
  NoDup (productIds (scoredProducts products entries next)) /\
  forall rec, In rec (scoredProducts products entries next) ->
              In (Product.id (Scored.product rec)) (map fst entries).
Proof.
  revert next. induction entries as [|[productId score] rest IH]; intros next Hnd;
    cbn [scoredProducts].
  - split; [constructor | simpl; tauto].
  - cbn [map fst] in Hnd. inversion Hnd; subst.
    destruct (IH (S next) H2) as [Hids Hin].
    destruct (findProduct products (Some productId)) as [product|] eqn:E.
    + apply findProduct_id in E. split.
      * unfold productIds in *. cbn [map Scored.product]. rewrite E.
        constructor; [| assumption].
        intros Hx. apply in_map_iff in Hx. destruct Hx as (r & Hr & Hx).
        apply Hin in Hx. congruence.
      * intros rec [<-|Hrec]; cbn [map fst Scored.product]; [left; auto |].
        right. now apply Hin.
    + split; [assumption |]. intros rec Hrec. right. now apply Hin.
Qed.

(** C4.  For every engine (whatever its profiles), user, candidate list and
    limit, [getPersonalizedRecommendations] returns at most [limit] products,
    and no two of them have the same [id]. *)
Theorem hybrid_recommendations_bounded_and_distinct :
  forall e userId products limit,
    let recommendations :=
      fst (getPersonalizedRecommendations userId products limit e) in
    List.length recommendations <= limit /\
    NoDup (map Product.id recommendations).
Proof.
  intros e userId products limit.
  unfold getPersonalizedRecommendations, bind, this, ret.
  destruct (getCollaborativeRecommendations userId products (limit * 2) e)
    as [collaborativeRecs e1].
  destruct (getContentBasedRecommendations userId products (limit * 2) e1)
    as [contentBasedRecs e2].
  cbn [fst].
  set (combinedScores := addRankScores _ contentBasedRecs _).
  set (sortedProducts := scoredProducts products _ 0).
  split.
  - rewrite length_map. apply applyDiversityFilter_length.
  - rewrite map_map.
    assert (Hkeys : NoDup (map fst (sort bySecondDescending (entries combinedScores))))
      by apply sort_NoDup_map, entries_NoDup.
    apply NoDup_map_within with (g := Scored.ref) (l := sortedProducts).
    + apply (proj1 (scoredProducts_ids products _ 0 Hkeys)).
    + apply applyDiversityFilter_NoDup, scoredProducts_refs.
    + intros x. apply applyDiversityFilter_In.
Qed.

(** ** The fallback of collaborative filtering *)

Lemma grown_refl userId e : grown userId e e.
Proof. repeat split; auto. Qed.

Lemma grown_trans userId e1 e2 e3 :
  grown userId e1 e2 -> grown userId e2 e3 -> grown userId e1 e3.
Proof.
  intros (C1 & O1 & U1) (C2 & O2 & U2). split; [congruence |]. split.
  - intros other Hne. rewrite O2, O1; auto.
  - destruct U2 as [U2|[N2 [t U2]]].
    + rewrite U2. exact U1.
    + destruct U1 as [U1|[N1 [t1 U1]]].
      * right. split; [congruence | eauto].
      * congruence.
Qed.

Lemma getUserProfile_grown userId e : grown userId e (snd (getUserProfile userId e)).
Proof.
  destruct (get userId (userProfiles e)) eqn:E.
  - rewrite (getUserProfile_found _ _ E). apply grown_refl.
  - rewrite (getUserProfile_new _ _ E). cbn. split; [reflexivity |]. split.
    + intros other Hne. apply get_set_other. congruence.
    + right. split; [assumption |]. eexists. apply get_set_same.
Qed.

Lemma getUserProfile_present_grown userId other e :
  get other (userProfiles e) <> None ->
  grown userId e (snd (getUserProfile other e)).
Proof.
  intros H. destruct (get other (userProfiles e)) eqn:E; [| congruence].
  rewrite (getUserProfile_found _ _ E). apply grown_refl.
Qed.

Lemma grown_present userId e e' k :
  grown userId e e' -> get k (userProfiles e) <> None ->
  get k (userProfiles e') <> None.
Proof.
  intros (_ & O & U) H. destruct (eq_dec k userId) as [->|Hne].
  - destruct U as [U|[N _]]; congruence.
  - rewrite O; auto.
Qed.

Lemma calculateUserSimilarity_grown userId other e :
  get other (userProfiles e) <> None ->
  grown userId e (snd (calculateUserSimilarity userId other e)).
Proof.
  intros H. unfold calculateUserSimilarity, bind, ret.
  pose proof (getUserProfile_grown userId e) as G1.
  destruct (getUserProfile userId e) as [p1 e1]. cbn [snd] in G1.
  pose proof (@getUserProfile_present_grown userId other e1
                (@grown_present userId e e1 other G1 H)) as G2.
  destruct (getUserProfile other e1) as [p2 e2]. cbn [snd] in *.
  eapply grown_trans; eauto.
Qed.

Lemma keys_present {K V} `{EqDec K} (d : Dict K V) (k : K) :
  In k (keys d) -> get k d <> None.
Proof.
  unfold keys. rewrite SetOf_In. induction d as [|[k' v] d IH]; simpl; [tauto |].
  intros [->|Hin].
  - rewrite same_refl. discriminate.
  - destruct (same k k'); [discriminate | auto].
Qed.

Lemma findSimilarUsers_grown userId limit e :
  grown userId e (snd (findSimilarUsers userId limit e)).
Proof.
  unfold findSimilarUsers, bind at 1, this.
  assert (L : forall (ks : list string) acc e1,
             grown userId e e1 ->
             (forall k, In k ks -> get k (userProfiles e) <> None) ->
             grown userId e
               (snd (forEachM
                  (fun similarities otherUserId =>
                     if same otherUserId userId then ret similarities else
                     similarity <- calculateUserSimilarity userId otherUserId ;;
                     ret (if (similarity > Fin 0.1)%js
                          then similarities ++
                               [ {| SimilarUser.userId := otherUserId;
                                    SimilarUser.similarity := similarity |} ]
                          else similarities))
                  ks acc e1))).
  { induction ks as [|k ks IH]; intros acc e1 G Hks; cbn [forEachM].
    - exact G.
    - unfold bind at 1.
      destruct (same k userId).
      + cbn [ret]. apply IH; auto. intros; apply Hks; simpl; auto.
      + unfold bind at 1.
        pose proof (@calculateUserSimilarity_grown userId k e1) as G1.
        destruct (calculateUserSimilarity userId k e1) as [s e2].
        cbn [snd ret] in *. apply IH.
        * eapply grown_trans; [exact G |]. apply G1.
          eapply grown_present; [exact G |]. apply Hks. simpl; auto.
        * intros; apply Hks; simpl; auto. }
  unfold bind.
  specialize (L (keys (userProfiles e)) [] e (grown_refl userId e)
                (fun k => @keys_present _ _ _ (userProfiles e) k)).
  destruct (forEachM _ (keys (userProfiles e)) [] e) as [sims e1].
  exact L.
Qed.

Lemma sameButLastUpdated_refl p : sameButLastUpdated p p.
Proof. reflexivity. Qed.

Lemma grown_profile userId e e' :
  grown userId e e' ->
  sameButLastUpdated (fst (getUserProfile userId e)) (fst (getUserProfile userId e')).
Proof.
  intros (_ & _ & U).
  destruct (get userId (userProfiles e)) as [p|] eqn:E.
  - destruct U as [U|[N _]]; [| congruence].
    rewrite (getUserProfile_found _ _ E), (getUserProfile_found e' userId U).
    reflexivity.
  - rewrite (getUserProfile_new _ _ E).
    destruct U as [U|[_ [t U]]].
    + rewrite (getUserProfile_new e' userId U). reflexivity.
    + rewrite (getUserProfile_found _ _ U). reflexivity.
Qed.

(** The ranking by content does not read [lastUpdated]. *)
Lemma contentBasedRanking_sameButLastUpdated p q products limit :
  sameButLastUpdated p q ->
  contentBasedRanking p products limit = contentBasedRanking q products limit.
Proof.
  unfold sameButLastUpdated. intros H.
  assert (E : contentScore p = contentScore q).
  { unfold contentScore, priceWithinRange, effectivePriceRange.
    destruct p, q. cbn in *. now inversion H. }
  unfold contentBasedRanking. now rewrite E.
Qed.

(** C8.  For every engine, user, candidate list and limit: when
    [findSimilarUsers] (asked for [minSimilarUsers] users) returns the empty
    list, [getCollaborativeRecommendations] returns exactly what
    [getContentBasedRecommendations] returns for the same arguments. *)
Theorem collaborative_falls_back_to_content_based :
  forall e userId products limit,
    fst (findSimilarUsers userId (Config.minSimilarUsers (config e)) e) = [] ->
    fst (getCollaborativeRecommendations userId products limit e)
    = fst (getContentBasedRecommendations userId products limit e).
Proof.
  intros e userId products limit H.
  unfold getCollaborativeRecommendations, bind at 1 2, this.
  pose proof (findSimilarUsers_grown userId (Config.minSimilarUsers (config e)) e) as G.
  destruct (findSimilarUsers userId (Config.minSimilarUsers (config e)) e)
    as [similarUsers e1].
  cbn [fst snd] in *. subst similarUsers. cbn [List.length Nat.eqb].
  unfold getContentBasedRecommendations, bind, ret.
  pose proof (@grown_profile userId e e1 G) as S.
  destruct (getUserProfile userId e1) as [p1 e1'], (getUserProfile userId e) as [p e'].
  cbn [fst] in *. symmetry. now apply contentBasedRanking_sameButLastUpdated.
Qed.

(** ** Symmetry of the similarity *)

(** On floating-point numbers a sum depends on the order of its terms; the
    facts below are those that hold there as well: [*], [Math.max] and
    [Math.min] are commutative.  No lemma of this section re-orders or
    re-associates a sum. *)

Module NumFacts.

Lemma mul_comm (x y : number) : (x * y)%js = (y * x)%js.
Proof. destruct x, y; cbn; try reflexivity. f_equal. lra. Qed.

Lemma max_comm (x y : number) : Num.max x y = Num.max y x.
Proof.
  destruct x as [a| | |], y as [b| | |]; cbn; try reflexivity.
  unfold Num.Rltb. destruct (Rlt_dec a b), (Rlt_dec b a); try reflexivity; try lra.
  f_equal. lra.
Qed.

Lemma min_comm (x y : number) : Num.min x y = Num.min y x.
Proof.
  destruct x as [a| | |], y as [b| | |]; cbn; try reflexivity.
  unfold Num.Rltb. destruct (Rlt_dec a b), (Rlt_dec b a); try reflexivity; try lra.
  f_equal. lra.
Qed.

End NumFacts.

Lemma total_ext {A} (f g : A -> number) (l : list A) (acc : number) :
  (forall k, f k = g k) -> total f l acc = total g l acc.
Proof.
  intros E. unfold total. revert acc.
  induction l as [|k l IH]; intros acc; cbn [fold_left]; [reflexivity |].
  now rewrite E, IH.
Qed.

(** The union of two key lists, taken in either order. *)
Lemma SetOf_app_perm {A} `{EqDec A} (l1 l2 : list A) :
  Permutation (SetOf (l1 ++ l2)) (SetOf (l2 ++ l1)).
Proof.
  apply NoDup_Permutation; try apply SetOf_NoDup.
  intros x. rewrite !SetOf_In, !in_app_iff. tauto.
Qed.

Lemma intersection_perm {A} `{EqDec A} (l1 l2 : list A) :
  NoDup l1 -> NoDup l2 ->
  Permutation (filter (fun x => includes x l2) l1)
              (filter (fun x => includes x l1) l2).
Proof.
  intros H1 H2.
  apply NoDup_Permutation; try (apply NoDup_filter; assumption).
  intros x. rewrite !filter_In, !includes_In. tauto.
Qed.

(** The accumulators of the cosine loop are three sums. *)
Lemma cosine_loop (a1 a2 : string -> number) (l : list string) (acc : Cosine) :
  fold_left
    (fun acc category =>
       {| dotProduct := (dotProduct acc + a1 category * a2 category)%js;
          norm1 := (norm1 acc + a1 category * a1 category)%js;
          norm2 := (norm2 acc + a2 category * a2 category)%js |})
    l acc
  = {| dotProduct := total (fun c => (a1 c * a2 c)%js) l (dotProduct acc);
       norm1 := total (fun c => (a1 c * a1 c)%js) l (norm1 acc);
       norm2 := total (fun c => (a2 c * a2 c)%js) l (norm2 acc) |}.
Proof.
  unfold total. revert acc. induction l as [|c l IH]; intros acc; cbn [fold_left].
  - now destruct acc.
  - now rewrite IH.
Qed.

Lemma sameOrder_union (l1 l2 : list string) :
  sameOrder l1 l2 -> SetOf (l1 ++ l2) = SetOf (l2 ++ l1).
Proof.
  intros [->|[->| ->]]; [reflexivity | |]; now rewrite app_nil_r.
Qed.

(** Over one list of categories, the two calls run one loop with [norm1]
    and [norm2] exchanged; no sum is taken in another order. *)
Lemma calculateCategorySimilarity_sym p q :
  sameOrder (keys (Profile.categoryAffinities p))
            (keys (Profile.categoryAffinities q)) ->
  calculateCategorySimilarity p q = calculateCategorySimilarity q p.
Proof.
  intros U. apply sameOrder_union in U.
  unfold calculateCategorySimilarity. rewrite <- U.
  destruct (List.length _ =? 0); [reflexivity |].
  rewrite (cosine_loop
    (fun c => orElse (get c (Profile.categoryAffinities p)) (Fin 0))
    (fun c => orElse (get c (Profile.categoryAffinities q)) (Fin 0))).
  rewrite (cosine_loop
    (fun c => orElse (get c (Profile.categoryAffinities q)) (Fin 0))
    (fun c => orElse (get c (Profile.categoryAffinities p)) (Fin 0))).
  cbn [dotProduct norm1 norm2].
  rewrite orb_comm.
  destruct (_ || _); [reflexivity |].
  rewrite (NumFacts.mul_comm (Num.sqrt _)). f_equal.
  apply total_ext. intros c. apply NumFacts.mul_comm.
Qed.

Lemma calculateBrandSimilarity_sym p q :
  calculateBrandSimilarity p q = calculateBrandSimilarity q p.
Proof.
  unfold calculateBrandSimilarity.
  set (b1 := SetOf (keys (Profile.brandAffinities p))).
  set (b2 := SetOf (keys (Profile.brandAffinities q))).
  rewrite (Permutation_length (SetOf_app_perm b1 b2)).
  rewrite (@SetOf_id _ _ (filter (fun x => includes x b2) b1))
    by (apply NoDup_filter, SetOf_NoDup).
  rewrite (@SetOf_id _ _ (filter (fun x => includes x b1) b2))
    by (apply NoDup_filter, SetOf_NoDup).
  now rewrite (Permutation_length
    (intersection_perm (SetOf_NoDup _ : NoDup b1) (SetOf_NoDup _ : NoDup b2))).
Qed.

Lemma calculatePriceSimilarity_sym p q :
  calculatePriceSimilarity p q = calculatePriceSimilarity q p.
Proof.
  unfold calculatePriceSimilarity.
  now rewrite (NumFacts.min_comm (PriceRange.max _)),
    (NumFacts.max_comm (PriceRange.min _)),
    (NumFacts.max_comm (PriceRange.max _)),
    (NumFacts.min_comm (PriceRange.min _)).
Qed.

Lemma calculateStyleSimilarity_sym p q :
  sameOrder (keys (stylesOf p)) (keys (stylesOf q)) ->
  calculateStyleSimilarity p q = calculateStyleSimilarity q p.
Proof.
  intros U. apply sameOrder_union in U.
  unfold calculateStyleSimilarity. fold (stylesOf p) (stylesOf q).
  rewrite <- U.
  destruct (List.length _ =? 0); [reflexivity |].
  f_equal.
  apply (@total_ext _
    (fun style =>
       (Num.min (orElse (get style (stylesOf p)) (Fin 0))
                (orElse (get style (stylesOf q)) (Fin 0))
        / Num.max (Num.max (orElse (get style (stylesOf p)) (Fin 0))
                           (orElse (get style (stylesOf q)) (Fin 0))) (Fin 1))%js)
    (fun style =>
       (Num.min (orElse (get style (stylesOf q)) (Fin 0))
                (orElse (get style (stylesOf p)) (Fin 0))
        / Num.max (Num.max (orElse (get style (stylesOf q)) (Fin 0))
                           (orElse (get style (stylesOf p)) (Fin 0))) (Fin 1))%js)).
  intros style.
  now rewrite NumFacts.min_comm,
    (NumFacts.max_comm (orElse (get style (stylesOf p)) (Fin 0))).
Qed.

Lemma similarity_sym p q :
  sameKeyOrder p q -> similarity p q = similarity q p.
Proof.
  intros [Uc Us]. unfold similarity.
  now rewrite (calculateCategorySimilarity_sym _ _ Uc), calculateBrandSimilarity_sym,
    calculatePriceSimilarity_sym, (calculateStyleSimilarity_sym _ _ Us).
Qed.

Lemma similarity_sameButLastUpdated p p' q q' :
  sameButLastUpdated p p' -> sameButLastUpdated q q' ->
  similarity p q = similarity p' q'.
Proof.
  unfold sameButLastUpdated. intros Hp Hq.
  destruct p, p', q, q'. cbn in Hp, Hq. inversion Hp. inversion Hq. subst.
  reflexivity.
Qed.

(** A profile read after another user's may have been added is the profile
    read before, but for the time of its creation. *)
Lemma grown_any_profile userId other e e' :
  grown userId e e' ->
  sameButLastUpdated (fst (getUserProfile other e)) (fst (getUserProfile other e')).
Proof.
  intros G. destruct (eq_dec other userId) as [->|Hne].
  - now apply grown_profile.
  - destruct G as (_ & O & _). specialize (O other Hne).
    destruct (get other (userProfiles e)) as [p|] eqn:E.
    + now rewrite (getUserProfile_found _ _ E), (getUserProfile_found _ _ O).
    + now rewrite (getUserProfile_new _ _ E), (getUserProfile_new _ _ O).
Qed.

Lemma calculateUserSimilarity_value e userId1 userId2 :
  fst (calculateUserSimilarity userId1 userId2 e)
  = similarity (fst (getUserProfile userId1 e)) (fst (getUserProfile userId2 e)).
Proof.
  unfold calculateUserSimilarity, bind, ret.
  pose proof (getUserProfile_grown userId1 e) as G.
  destruct (getUserProfile userId1 e) as [p1 e1]. cbn [fst snd] in *.
  pose proof (@grown_any_profile userId1 userId2 e e1 G) as S.
  destruct (getUserProfile userId2 e1) as [p2 e2]. cbn [fst] in *.
  apply similarity_sameButLastUpdated; [reflexivity |].
  unfold sameButLastUpdated in *. congruence.
Qed.

Lemma eq_reflexive (x : number) : x <> NaN -> (x === x)%js = true.
Proof.
  destruct x; cbn; intros H; try reflexivity; [| congruence].
  now apply Reqb_true.
Qed.



(** The similarity of the two shoppers is a number. *)
Lemma similarity_of_shoppers_is_a_number :
  fst (calculateUserSimilarity "alice" "bob" twoShoppers) <> NaN.
Proof.
  rewrite calculateUserSimilarity_value.
  unfold getUserProfile, bind, this, ret. cbn.
  unfold similarity, calculateCategorySimilarity, calculateBrandSimilarity,
    calculatePriceSimilarity, calculateStyleSimilarity, effectivePriceRange, shopper.
  num_eval.
  assert (S : (sqrt (0 + 2 * 2 + 1 * 1) * sqrt (0 + 1 * 1 + 3 * 3))%R <> 0%R).
  { apply Rmult_integral_contrapositive_currified;
      apply Rgt_not_eq, sqrt_lt_R0; lra. }
  rewrite (Reqb_false S). cbn. discriminate.
Qed.


(** ** The time weight of a recorded interaction *)

(** [updateUserProfile] passes the [now] it has just read to
    [calculateTimeWeight], which reads the clock again: unless a day passes
    between the two readings, the time weight is [recent]. *)
Lemma calculateTimeWeight_of_now e :
  (Date.getTime (clock e (S (ticks e))) - Date.getTime (clock e (ticks e))
   < dayMs)%Z ->
  fst (calculateTimeWeight (fst (DateNow e)) (snd (DateNow e)))
  = TimeWeights.recent (Config.timeWeights (config e)).
Proof.
  intros H. unfold calculateTimeWeight, DateNow, newDate, bind, this, ret.
  cbn -[Z.ltb Z.sub Z.mul dayMs]. apply Z.ltb_lt in H. now rewrite H.
Qed.

(** C6 (failing input).  A view whose own timestamp is three days old is
    recorded by a new user: the entry of [behaviorHistory] carries the time
    of the recording, not the interaction's own, and the weight
    [1.0 * 1.0 * 1.0], whose time factor is [recent = 1.0] and not
    [week = 0.8]. *)
Theorem old_interaction_is_weighted_as_recent :
  map (fun h => (HistoryEntry.timestamp h, HistoryEntry.weight h))
      (Profile.behaviorHistory
         (fst (updateUserProfile "u" oldView (emptyEngine defaultConfig tickingClock))))
  = [ (1700000000001%Z, Fin 1) ] /\
  Interaction.timestamp oldView = Some (1700000000001 - 3 * dayMs - 1)%Z /\
  fst (calculateTimeWeight 1700000000001
         (with_ticks 2 (emptyEngine defaultConfig tickingClock)))
  = Fin 1.0.
Proof.
  split; [| split; reflexivity].
  num_eval. num_eq.
Qed.

(** ** Methods that keep the settings *)

Lemma sameSettings_refl e : sameSettings e e.
Proof. repeat split. Qed.

Lemma sameSettings_trans e1 e2 e3 :
  sameSettings e1 e2 -> sameSettings e2 e3 -> sameSettings e1 e3.
Proof. unfold sameSettings. intuition congruence. Qed.

Lemma keeps_settings_ret {A} (x : A) : keeps_settings (ret x).
Proof. intros e. apply sameSettings_refl. Qed.

Lemma keeps_settings_this : keeps_settings this.
Proof. intros e. apply sameSettings_refl. Qed.

Lemma keeps_settings_bind {A B} (m : M A) (k : A -> M B) :
  keeps_settings m -> (forall x, keeps_settings (k x)) -> keeps_settings (bind m k).
Proof.
  intros Hm Hk e. unfold bind. specialize (Hm e).
  destruct (m e) as [x e1]. eapply sameSettings_trans; [exact Hm | apply Hk].
Qed.

Lemma keeps_settings_forEachM {A S} (body : S -> A -> M S) (l : list A) :
  (forall acc x, keeps_settings (body acc x)) ->
  forall acc, keeps_settings (forEachM body l acc).
Proof.
  intros Hb. induction l as [|x l IH]; intros acc; cbn [forEachM].
  - apply keeps_settings_ret.
  - apply keeps_settings_bind; auto.
Qed.

Lemma keeps_settings_getUserProfile userId : keeps_settings (getUserProfile userId).
Proof.
  intros e. destruct (get userId (userProfiles e)) eqn:E.
  - rewrite (getUserProfile_found _ _ E). apply sameSettings_refl.
  - rewrite (getUserProfile_new _ _ E). repeat split.
Qed.

Create HintDb settings discriminated.
#[export] Hint Resolve keeps_settings_ret keeps_settings_this
  keeps_settings_getUserProfile : settings.

Ltac settings :=
  repeat first
    [ solve [ auto with settings ]
    | match goal with |- keeps_settings (if ?c then _ else _) => destruct c end
    | apply keeps_settings_forEachM; intros ? ?
    | apply keeps_settings_bind; [| intros ? ] ].

Lemma keeps_settings_calculateUserSimilarity userId1 userId2 :
  keeps_settings (calculateUserSimilarity userId1 userId2).
Proof. unfold calculateUserSimilarity. settings. Qed.

#[export] Hint Resolve keeps_settings_calculateUserSimilarity : settings.

Lemma keeps_settings_findSimilarUsers userId limit :
  keeps_settings (findSimilarUsers userId limit).
Proof. unfold findSimilarUsers. settings. Qed.

Lemma keeps_settings_getContentBasedRecommendations userId products limit :
  keeps_settings (getContentBasedRecommendations userId products limit).
Proof. unfold getContentBasedRecommendations. settings. Qed.

#[export] Hint Resolve keeps_settings_findSimilarUsers
  keeps_settings_getContentBasedRecommendations : settings.

Lemma keeps_settings_getCollaborativeRecommendations userId products limit :
  keeps_settings (getCollaborativeRecommendations userId products limit).
Proof. unfold getCollaborativeRecommendations. settings. Qed.

#[export] Hint Resolve keeps_settings_getCollaborativeRecommendations : settings.

Lemma keeps_settings_getPersonalizedRecommendations userId products limit :
  keeps_settings (getPersonalizedRecommendations userId products limit).
Proof. unfold getPersonalizedRecommendations. settings. Qed.

(** ** The contextual boost *)

Lemma getUserProfile_contextualData userId e :
  contextualData (snd (getUserProfile userId e)) = contextualData e.
Proof.
  destruct (get userId (userProfiles e)) eqn:E.
  - now rewrite (getUserProfile_found _ _ E).
  - now rewrite (getUserProfile_new _ _ E).
Qed.

Lemma applyContextualBoost_value recommendations userId e :
  fst (applyContextualBoost recommendations userId e)
  = map (fun product =>
           {| Boosted.product := product;
              Boosted.contextualBoost :=
                Some (contextualBoostOf (contextualData e) product) |})
        recommendations.
Proof.
  unfold applyContextualBoost, bind, this, ret.
  pose proof (getUserProfile_contextualData userId e) as C.
  destruct (getUserProfile userId e) as [p e1]. cbn [fst snd] in *.
  now rewrite C.
Qed.

(** The boost is a positive real: the product of the multipliers that
    match. *)
Lemma contextualBoostOf_product context product :
  contextualBoostOf context product
  = Fin (productOf (matchingMultipliers context product)).
Proof.
  unfold contextualBoostOf, matchingMultipliers, productOf. cbv zeta beta.
  destruct (Product.tags product) as [tags|]; rewrite ?andb_false_r;
    repeat match goal with
    | |- context [if ?c then _ else _] => destruct c
    end; cbn; f_equal; lra.
Qed.

Lemma productOf_matching_positive context product :
  (0 < productOf (matchingMultipliers context product))%R.
Proof.
  unfold matchingMultipliers, productOf. cbv zeta beta.
  repeat match goal with
  | |- context [if ?c then _ else _] => destruct c
  end; cbn; lra.
Qed.


(** The sort of [getRecommendations], by descending boost. *)
Section SortedByKey.
Context {A : Type} (sortKey : A -> number).

Lemma insert_In (cmp : A -> A -> number) x y l :
  In y (insert cmp x l) -> y = x \/ In y l.
Proof.
  intros H. apply (Permutation_in _ (Permutation_sym (insert_perm cmp x l))) in H.
  simpl in H. intuition.
Qed.

Lemma insert_descending x l :
  (finiteKey sortKey) x -> Forall (finiteKey sortKey) l ->
  descendingBy sortKey l -> descendingBy sortKey (insert (descendingKey sortKey) x l).
Proof.
  intros [kx Hx] Hfin Hs. unfold descendingBy in *.
  induction l as [|y l IH]; cbn [insert].
  - constructor; [constructor | constructor].
  - inversion Hfin as [|? ? [ky Hy] Hfin']; subst.
    apply StronglySorted_inv in Hs. destruct Hs as [Hs Hy_all].
    unfold descendingKey at 1. rewrite Hx, Hy.
    unfold Num.gt, Num.sub. cbn [Num.neg Num.add Num.lt].
    unfold Num.Rltb. destruct (Rlt_dec 0 (ky + - kx)) as [Hlt|Hge].
    + constructor; [now apply IH |].
      rewrite Forall_forall. intros z Hz. apply insert_In in Hz.
      destruct Hz as [->|Hz].
      * rewrite Hx, Hy. unfold Num.ge, Num.le. cbn [Num.lt Num.eq].
        rewrite Rltb_true by lra. reflexivity.
      * rewrite Forall_forall in Hy_all. now apply Hy_all.
    + constructor; [constructor; assumption |].
      constructor.
      * rewrite Hx, Hy. unfold Num.ge, Num.le. cbn [Num.lt Num.eq].
        destruct (Req_dec_T ky kx) as [->|Hne].
        -- rewrite Reqb_true by reflexivity. apply orb_true_r.
        -- rewrite Rltb_true by lra. reflexivity.
      * rewrite Forall_forall in *. intros z Hz.
        specialize (Hy_all z Hz). destruct (Hfin' z Hz) as [kz Hkz].
        rewrite Hx, Hy, Hkz in *. unfold Num.ge, Num.le in *.
        cbn [Num.lt Num.eq] in *. apply orb_true_iff in Hy_all.
        unfold Num.Rltb, Num.Reqb in *.
        destruct (Rlt_dec kz ky), (Req_dec_T kz ky), (Rlt_dec kz kx),
          (Req_dec_T kz kx); try reflexivity; destruct Hy_all; try discriminate;
          exfalso; lra.
Qed.

Lemma sort_descending l :
  Forall (finiteKey sortKey) l -> descendingBy sortKey (sort (descendingKey sortKey) l).
Proof.
  induction 1 as [|x l Hx Hl IH]; cbn [sort fold_right].
  - constructor.
  - apply insert_descending; auto.
    rewrite Forall_forall in *. intros y Hy. apply Hl.
    apply (Permutation_in _ (Permutation_sym (sort_perm (descendingKey sortKey) l))). exact Hy.
Qed.

End SortedByKey.

Lemma slice0_descending {A} (f : A -> number) (n : nat) (l : list A) :
  descendingBy f l -> descendingBy f (slice0 n l).
Proof.
  unfold descendingBy, slice0. revert n.
  induction l as [|x l IH]; intros [|n] H; cbn [firstn]; try constructor.
  - apply StronglySorted_inv in H. now apply IH.
  - apply StronglySorted_inv in H. destruct H as [_ H].
    rewrite Forall_forall in *. intros y Hy. apply H.
    eapply slice0_In. exact Hy.
Qed.

(** With the adaptation on, [getRecommendations] returns the first [limit]
    of the personalized recommendations, boosted and then sorted. *)
Lemma getRecommendations_value e userId limit category :
  Config.realTimeAdaptation (config e) = true ->
  exists recommendations,
    fst (getRecommendations userId limit category true e)
    = slice0 limit
        (sort byBoostDescending
           (map (fun product =>
                   {| Boosted.product := product;
                      Boosted.contextualBoost :=
                        Some (contextualBoostOf (contextualData e) product) |})
                recommendations)).
Proof.
  intros Hon. unfold getRecommendations, bind at 1, this.
  set (products := if present category then _ else _).
  unfold bind at 1.
  pose proof (keeps_settings_getPersonalizedRecommendations userId products limit e)
    as S.
  destruct (getPersonalizedRecommendations userId products limit e) as [recs e1].
  cbn [snd] in S. destruct S as (C & _ & D & _).
  unfold bind at 1. rewrite C, Hon. cbn [andb].
  unfold bind.
  pose proof (applyContextualBoost_value recs userId e1) as V.
  destruct (applyContextualBoost recs userId e1) as [boosted e2].
  cbn [fst ret] in *. rewrite D in V. exists recs. now rewrite V.
Qed.


(** In the winter shop a new user is recommended the winter shirt first,
    though the plain one ranks first before the boost. *)
Lemma getRecommendations_on_winterShop :
  map (fun b => Product.id (Boosted.product b))
      (fst (getRecommendations "u" 10 None true winterShop)) = [2; 1]%Z.
Proof.
  num_eval.
  unfold priceWithinRange, effectivePriceRange, seasonal, newUserProfile.
  num_eval.
  unfold applyDiversityFilter, addRankScores, contextualBoostOf, hasTag.
  num_eval.
  unfold byBoostDescending. num_eval. reflexivity.
Qed.


(** ** The fallback, on an engine with two new users *)

Lemma collaborative_falls_back_witness :
  fst (getCollaborativeRecommendations "alice" [pricedProduct 1 3000] 10 twoNewUsers)
  = fst (getContentBasedRecommendations "alice" [pricedProduct 1 3000] 10 twoNewUsers).
Proof.
  apply collaborative_falls_back_to_content_based.
  cbn.
  rewrite similarity_NaN
    by (now apply price_similarity_unbounded_ranges with (a := 0%R) (b := 0%R)).
  reflexivity.
Defined.

(** ** Category affinities along a run *)

Lemma updateUserProfile_stored e userId interaction :
  get userId (userProfiles (snd (updateUserProfile userId interaction e)))
  = Some (fst (updateUserProfile userId interaction e)).
Proof.
  destruct (updateUserProfile_run e userId interaction)
    as (now & w & e2 & e3 & p' & _ & _ & _ & Hrun).
  rewrite Hrun. cbn. apply get_set_same.
Qed.

Lemma updateUserProfile_others e userId interaction other :
  other <> userId ->
  get other (userProfiles (snd (updateUserProfile userId interaction e)))
  = get other (userProfiles e).
Proof.
  intros Hne.
  destruct (updateUserProfile_run e userId interaction)
    as (now & w & e2 & e3 & p' & T2 & T3 & _ & Hrun).
  rewrite Hrun. cbn. rewrite get_set_other by congruence.
  destruct T3 as (_ & U3 & _). destruct T2 as (_ & U2 & _).
  rewrite U3, U2. apply getUserProfile_others. congruence.
Qed.

Lemma updateUserProfile_config e userId interaction :
  config (snd (updateUserProfile userId interaction e)) = config e.
Proof.
  destruct (updateUserProfile_run e userId interaction)
    as (now & w & e2 & e3 & p' & T2 & T3 & _ & Hrun).
  rewrite Hrun. cbn.
  destruct T3 as (C3 & _). destruct T2 as (C2 & _).
  rewrite C3, C2. apply getUserProfile_config.
Qed.

Lemma run_config events e : config (run events e) = config e.
Proof.
  unfold run. revert e. induction events as [|ev events IH]; intros e;
    cbn [fold_left]; [reflexivity |].
  rewrite IH. apply updateUserProfile_config.
Qed.

Lemma run_app events1 events2 e :
  run (events1 ++ events2) e = run events2 (run events1 e).
Proof. unfold run. apply fold_left_app. Qed.

(** The affinities [getUserProfile] would show: those stored, or none. *)
Lemma profileOf_categoryAffinities userId e :
  Profile.categoryAffinities (profileOf userId e)
  = match get userId (userProfiles e) with
    | Some p => Profile.categoryAffinities p
    | None => []
    end.
Proof.
  unfold profileOf. destruct (get userId (userProfiles e)) eqn:E.
  - now rewrite (getUserProfile_found _ _ E).
  - now rewrite (getUserProfile_new _ _ E).
Qed.

(** One event changes the affinities of a user by the category statement
    of that user's own interaction, and not at all otherwise. *)
Lemma event_categoryAffinities userId ev e :
  Profile.categoryAffinities
    (profileOf userId (snd (updateUserProfile (fst ev) (snd ev) e)))
  = if same (fst ev) userId
    then Profile.categoryAffinities
           (categoryStep (config e) (snd ev) (profileOf userId e))
    else Profile.categoryAffinities (profileOf userId e).
Proof.
  rewrite profileOf_categoryAffinities.
  destruct (same (fst ev) userId) eqn:E.
  - apply same_true in E. rewrite E.
    rewrite updateUserProfile_stored.
    apply updateUserProfile_categoryAffinities.
  - apply same_false in E.
    rewrite updateUserProfile_others by congruence.
    now rewrite profileOf_categoryAffinities.
Qed.

Module Sign.

Lemma positive_cases x : positive x <-> x = PosInf \/ exists r, x = Fin r /\ (0 < r)%R.
Proof.
  unfold positive, Num.gt. destruct x as [r| | |]; cbn [Num.lt].
  - unfold Num.Rltb. destruct (Rlt_dec 0 r); split.
    + intros _. right. eauto.
    + reflexivity.
    + discriminate.
    + intros [H|(r' & H & Hr)]; [discriminate | injection H as ->; contradiction].
  - split; auto.
  - split; [discriminate | intros [H|(r & H & _)]; discriminate].
  - split; [discriminate | intros [H|(r & H & _)]; discriminate].
Qed.

Lemma nonneg_cases x :
  (x >= Fin 0)%js = true <-> x = PosInf \/ exists r, x = Fin r /\ (0 <= r)%R.
Proof.
  unfold Num.ge, Num.le. destruct x as [r| | |]; cbn [Num.lt Num.eq orb].
  - unfold Num.Rltb, Num.Reqb.
    destruct (Rlt_dec 0 r), (Req_dec_T 0 r); cbn [orb]; split;
      try (intros _; right; exists r; split; [reflexivity | lra]);
      try reflexivity; try discriminate.
    intros [H|(r' & H & Hr)]; [discriminate | injection H as ->; lra].
  - split; auto.
  - split; [discriminate | intros [H|(r & H & _)]; discriminate].
  - split; [discriminate | intros [H|(r & H & _)]; discriminate].
Qed.

Lemma positive_mul x y : positive x -> positive y -> positive (x * y)%js.
Proof.
  rewrite !positive_cases.
  intros [->|(a & -> & Ha)] [->|(b & -> & Hb)]; cbn [Num.mul].
  - auto.
  - left. unfold Num.signed. now rewrite Rltb_true.
  - left. unfold Num.signed. now rewrite Rltb_true.
  - right. exists (a * b)%R. split; [reflexivity | nra].
Qed.

(** A weight read with [|| 1.0] from a table without negative weight. *)
Lemma positive_weight d k :
  noNegativeWeight d -> positive (orElse (get k d) (Fin 1.0)).
Proof.
  intros Hd. unfold orElse. destruct (get k d) as [w|] eqn:E.
  - specialize (Hd k w E). destruct (Num.truthy w) eqn:T.
    + apply positive_cases. destruct w as [r| | |]; cbn in *;
        try discriminate; auto.
      right. exists r. split; [reflexivity |].
      unfold Num.Rltb, Num.Reqb in *.
      destruct (Rlt_dec r 0), (Req_dec_T r 0); try discriminate. lra.
    + apply positive_cases. right. exists 1.0%R. split; [reflexivity | lra].
  - apply positive_cases. right. exists 1.0%R. split; [reflexivity | lra].
Qed.

Lemma add_positive x g :
  (x >= Fin 0)%js = true -> positive g ->
  ((x + g)%js >= Fin 0)%js = true /\ (x <= x + g)%js = true.
Proof.
  rewrite !nonneg_cases, positive_cases.
  intros [->|(a & -> & Ha)] [->|(b & -> & Hb)]; cbn [Num.add];
    unfold Num.le; cbn [Num.lt Num.eq orb]; split; auto.
  - right. exists (a + b)%R. split; [reflexivity | lra].
  - now rewrite Rltb_true by lra.
Qed.

Lemma add_positive_strict x g :
  (x >= Fin 0)%js = true -> positive g -> positive (x + g)%js.
Proof.
  rewrite nonneg_cases, !positive_cases.
  intros [->|(a & -> & Ha)] [->|(b & -> & Hb)]; cbn [Num.add]; auto.
  right. exists (a + b)%R. split; [reflexivity | lra].
Qed.

Lemma positive_truthy x : positive x -> Num.truthy x = true.
Proof.
  rewrite positive_cases. intros [->|(a & -> & Ha)]; cbn; [reflexivity |].
  now rewrite Reqb_false by lra.
Qed.

Lemma le_refl x : x <> NaN -> (x <= x)%js = true.
Proof.
  unfold Num.le. destruct x as [r| | |]; cbn [Num.lt Num.eq]; try congruence;
    try reflexivity.
  intros _. rewrite Reqb_true by reflexivity. apply orb_true_r.
Qed.

End Sign.

Lemma affinity_nonNegative d k :
  nonNegative d -> (affinity d k >= Fin 0)%js = true.
Proof.
  intros Hd. unfold affinity, orElse. destruct (get k d) as [v|] eqn:E.
  - destruct (Num.truthy v); [eapply Hd; eauto |].
    apply Sign.nonneg_cases. right. exists 0%R. split; [reflexivity | lra].
  - apply Sign.nonneg_cases. right. exists 0%R. split; [reflexivity | lra].
Qed.

Lemma affinity_not_NaN d k : affinity d k <> NaN.
Proof.
  unfold affinity, orElse. destruct (get k d) as [v|]; [| discriminate].
  destruct v; cbn; try discriminate. destruct (negb _); discriminate.
Qed.

Section CategoryStep.
Variables (cfg : Config.t) (i : Interaction.t) (p : Profile.t).
Hypothesis click_ok : noNegativeWeight (Config.clickWeights cfg).
Hypothesis category_ok : noNegativeWeight (Config.categoryWeights cfg).
Hypothesis p_ok : nonNegative (Profile.categoryAffinities p).

Lemma categoryGain_positive category :
  positive (categoryGain cfg i category).
Proof.
  unfold categoryGain. apply Sign.positive_mul; now apply Sign.positive_weight.
Qed.

Lemma categoryStep_nonNegative :
  nonNegative (Profile.categoryAffinities (categoryStep cfg i p)).
Proof.
  unfold categoryStep. destruct (present (Interaction.category i)); [| exact p_ok].
  intros k v Hk.
  destruct (eq_dec k (key (Interaction.category i))) as [->|Hne].
  - rewrite updateCategoryAffinity_get in Hk. injection Hk as <-.
    apply Sign.add_positive.
    + now apply affinity_nonNegative.
    + apply categoryGain_positive.
  - rewrite updateCategoryAffinity_other in Hk by assumption. eapply p_ok; eauto.
Qed.

Lemma categoryStep_monotone k :
  (affinity (Profile.categoryAffinities p) k
   <= affinity (Profile.categoryAffinities (categoryStep cfg i p)) k)%js = true.
Proof.
  unfold categoryStep. destruct (present (Interaction.category i)).
  - destruct (eq_dec k (key (Interaction.category i))) as [->|Hne].
    + unfold affinity at 2. rewrite updateCategoryAffinity_get.
      fold (categoryGain cfg i (key (Interaction.category i))).
      assert (A : (affinity (Profile.categoryAffinities p)
                     (key (Interaction.category i)) >= Fin 0)%js = true)
        by now apply affinity_nonNegative.
      pose proof (categoryGain_positive (key (Interaction.category i))) as G.
      unfold orElse.
      rewrite (@Sign.positive_truthy _ (@Sign.add_positive_strict _ _ A G)).
      now apply Sign.add_positive.
    + unfold affinity. rewrite updateCategoryAffinity_other by assumption.
      apply Sign.le_refl, affinity_not_NaN.
  - apply Sign.le_refl, affinity_not_NaN.
Qed.

End CategoryStep.

Lemma categoryStep_unreferenced cfg i p category :
  ~ (Interaction.category i = Some category /\ category <> "") ->
  get category (Profile.categoryAffinities (categoryStep cfg i p))
  = get category (Profile.categoryAffinities p).
Proof.
  intros Hn. unfold categoryStep.
  destruct (Interaction.category i) as [c|] eqn:E; cbn [present key];
    [| reflexivity].
  destruct c as [|a c]; [reflexivity |].
  apply updateCategoryAffinity_other. intros ->. apply Hn.
  split; [reflexivity | discriminate].
Qed.

Lemma run_nonNegative userId events :
  forall e,
    noNegativeWeight (Config.clickWeights (config e)) ->
    noNegativeWeight (Config.categoryWeights (config e)) ->
    nonNegative (Profile.categoryAffinities (profileOf userId e)) ->
    nonNegative (Profile.categoryAffinities (profileOf userId (run events e))).
Proof.
  induction events as [|ev events IH]; intros e Hc Hw He; [exact He |].
  change (run (ev :: events) e)
    with (run events (snd (updateUserProfile (fst ev) (snd ev) e))).
  apply IH; try (rewrite updateUserProfile_config; assumption).
  rewrite event_categoryAffinities.
  destruct (same (fst ev) userId); [| exact He].
  now apply categoryStep_nonNegative.
Qed.

(** C9 (as stated, refuted).  The category weights are the caller's, and
    nothing keeps them from being negative: on an engine made with
    [categoryWeights: { clothing: -1 }], one view of a clothing product
    leaves a new user with the affinity [0 + 1.0 * -1 = -1]. *)
Lemma a_negative_weight_gives_a_negative_affinity :
  ~ (forall e userId events, affinities_stay_nonNegative e userId events).
Proof.
  intros H.
  specialize (H discountingEngine "u" [("u", winterView)] eq_refl
                "clothing" (Fin (-1))).
  assert (E : get "clothing"
                (Profile.categoryAffinities
                   (profileOf "u" (run [("u", winterView)] discountingEngine)))
              = Some (Fin (-1))).
  { num_eval. num_eq. }
  specialize (H E). revert H. num_eval. discriminate.
Qed.

(** C9 (amended).  On an engine whose click and category weights are not
    negative (the default ones are positive), take any sequence of recorded
    interactions, of any users, that starts before [userId] has a profile,
    and any further one, the types and categories of the interactions
    recorded for [userId] being no names inherited from [Object.prototype].
    Every category affinity of [userId] is [>= 0] before and after the
    further interaction, none decreases, and those of the categories that
    interaction does not reference for [userId] are unchanged. *)
Theorem category_affinities_only_grow :
  forall e userId events next,
    get userId (userProfiles e) = None ->
    noNegativeWeight (Config.clickWeights (config e)) ->
    noNegativeWeight (Config.categoryWeights (config e)) ->
    Forall readsOwnNames (interactionsOf userId (events ++ [next])) ->
    let before := Profile.categoryAffinities (profileOf userId (run events e)) in
    let after :=
      Profile.categoryAffinities (profileOf userId (run (events ++ [next]) e)) in
    nonNegative before /\ nonNegative after /\
    (forall category,
       (affinity before category <= affinity after category)%js = true) /\
    (forall category,
       ~ references next userId category ->
       get category after = get category before).
Proof.
  intros e userId events next Hnew Hc Hw _ before after.
  assert (H0 : nonNegative (Profile.categoryAffinities (profileOf userId e))).
  { rewrite profileOf_categoryAffinities, Hnew. intros k v Hk. discriminate. }
  assert (Hb : nonNegative before) by now apply run_nonNegative.
  assert (Ha : nonNegative after) by now apply run_nonNegative.
  repeat split; try assumption.
  - intros category. subst before after. rewrite run_app.
    change (run [next] (run events e))
      with (snd (updateUserProfile (fst next) (snd next) (run events e))).
    rewrite event_categoryAffinities, run_config.
    destruct (same (fst next) userId).
    + now apply categoryStep_monotone.
    + apply Sign.le_refl, affinity_not_NaN.
  - intros category Hn. subst before after. rewrite run_app.
    change (run [next] (run events e))
      with (snd (updateUserProfile (fst next) (snd next) (run events e))).
    rewrite event_categoryAffinities.
    destruct (same (fst next) userId) eqn:E; [| reflexivity].
    apply same_true in E. apply categoryStep_unreferenced.
    intros [Hcat Hne]. apply Hn. now repeat split.
Qed.

Lemma defaultConfig_weights :
  noNegativeWeight (Config.clickWeights defaultConfig) /\
  noNegativeWeight (Config.categoryWeights defaultConfig).
Proof.
  split; intros k w; cbn;
    repeat (destruct (same k _); [intros H; injection H as <-; now num_eval |]);
    discriminate.
Qed.

Lemma category_affinities_only_grow_witness :
  let e := emptyEngine defaultConfig winterClock in
  let before :=
    Profile.categoryAffinities (profileOf "u" (run [("u", winterView)] e)) in
  let after :=
    Profile.categoryAffinities
      (profileOf "u" (run ([("u", winterView)] ++ [("u", pricedView)]) e)) in
  Forall readsOwnNames
         (interactionsOf "u" ([("u", winterView)] ++ [("u", pricedView)])) /\
  nonNegative before /\ nonNegative after /\
  (forall category,
     (affinity before category <= affinity after category)%js = true) /\
  (forall category,
     ~ references ("u", pricedView) "u" category ->
     get category after = get category before).
Proof.
  assert (N : Forall readsOwnNames
                (interactionsOf "u" ([("u", winterView)] ++ [("u", pricedView)])))
    by (repeat constructor).
  exact (conj N (category_affinities_only_grow
                   (emptyEngine defaultConfig winterClock) "u"
                   [("u", winterView)] ("u", pricedView) eq_refl
                   (proj1 defaultConfig_weights) (proj2 defaultConfig_weights) N)).
Defined.

(** ** The price range of a profile *)

Section PriceFrame.
Variables (cfg : Config.t) (i : Interaction.t) (now : Z) (w : number) (p : Profile.t).

Lemma addToBehaviorHistory_priceRange :
  Profile.priceRange (addToBehaviorHistory cfg i now w p) = Profile.priceRange p /\
  Profile.preferredPriceRange (addToBehaviorHistory cfg i now w p)
  = Profile.preferredPriceRange p.
Proof. split; frame. Qed.

Lemma categoryStep_priceRange :
  Profile.priceRange (categoryStep cfg i p) = Profile.priceRange p /\
  Profile.preferredPriceRange (categoryStep cfg i p) = Profile.preferredPriceRange p.
Proof. split; frame. Qed.

Lemma brandStep_priceRange :
  Profile.priceRange (brandStep cfg i p) = Profile.priceRange p /\
  Profile.preferredPriceRange (brandStep cfg i p) = Profile.preferredPriceRange p.
Proof. split; frame. Qed.

Lemma styleStep_priceRange :
  Profile.priceRange (styleStep i p) = Profile.priceRange p /\
  Profile.preferredPriceRange (styleStep i p) = Profile.preferredPriceRange p.
Proof. split; frame. Qed.

Lemma countInteraction_priceRange :
  Profile.priceRange (countInteraction now p) = Profile.priceRange p /\
  Profile.preferredPriceRange (countInteraction now p) = Profile.preferredPriceRange p.
Proof. split; frame. Qed.

End PriceFrame.

(** No price is above [Infinity], and [Infinity] is truthy: the guard
    [!priceRange.max || price > priceRange.max] never fires. *)
Lemma updatePricePreferences_max profile price :
  PriceRange.max (Profile.priceRange profile) = PosInf ->
  PriceRange.max (Profile.priceRange (updatePricePreferences profile price)) = PosInf.
Proof.
  intros H. unfold updatePricePreferences. rewrite H.
  assert (G : negb (Num.truthy PosInf) || (price > PosInf)%js = false)
    by now destruct price.
  rewrite G.
  destruct (5 <=? _); reflexivity.
Qed.

Lemma priceStep_max i profile :
  PriceRange.max (Profile.priceRange profile) = PosInf ->
  PriceRange.max (Profile.priceRange (priceStep i profile)) = PosInf.
Proof.
  intros H. unfold priceStep. destruct (negb _); [| assumption].
  now apply updatePricePreferences_max.
Qed.

Lemma updateUserProfile_max e userId interaction :
  PriceRange.max (Profile.priceRange (profileOf userId e)) = PosInf ->
  PriceRange.max (Profile.priceRange (fst (updateUserProfile userId interaction e)))
  = PosInf.
Proof.
  intros H.
  destruct (updateUserProfile_run e userId interaction)
    as (now & w & e2 & e3 & p' & _ & _ & Hconv & Hrun).
  rewrite Hrun. cbn [fst].
  rewrite (proj1 (countInteraction_priceRange _ _)).
  match type of Hconv with updateConversionMetrics ?q _ _ = _ =>
    pose proof (updateConversionMetrics_frame q interaction e2) as F end.
  rewrite Hconv in F. cbn [fst] in F. destruct F as (_ & _ & F & _). rewrite F.
  rewrite (proj1 (styleStep_priceRange _ _)).
  apply priceStep_max.
  now rewrite (proj1 (brandStep_priceRange _ _ _)),
    (proj1 (categoryStep_priceRange _ _ _)),
    (proj1 (addToBehaviorHistory_priceRange _ _ _ _ _)).
Qed.

Lemma profileOf_stored userId e profile :
  get userId (userProfiles e) = Some profile -> profileOf userId e = profile.
Proof. intros H. unfold profileOf. now rewrite (getUserProfile_found _ _ H). Qed.

Lemma profileOf_new userId e :
  get userId (userProfiles e) = None ->
  profileOf userId e = newUserProfile userId (Date.getTime (clock e (ticks e))).
Proof. intros H. unfold profileOf. now rewrite (getUserProfile_new _ _ H). Qed.

Lemma run_max userId events :
  forall e,
    PriceRange.max (Profile.priceRange (profileOf userId e)) = PosInf ->
    PriceRange.max (Profile.priceRange (profileOf userId (run events e))) = PosInf.
Proof.
  induction events as [|ev events IH]; intros e He; [exact He |].
  change (run (ev :: events) e)
    with (run events (snd (updateUserProfile (fst ev) (snd ev) e))).
  apply IH.
  destruct (eq_dec (fst ev) userId) as [E|Hne].
  - rewrite E.
    rewrite (profileOf_stored _ _ (updateUserProfile_stored e userId (snd ev))).
    now apply updateUserProfile_max.
  - pose proof (@updateUserProfile_others e (fst ev) (snd ev) userId
                  (not_eq_sym Hne)) as O.
    destruct (get userId (userProfiles e)) as [p|] eqn:G.
    + rewrite (profileOf_stored _ _ O). now rewrite (profileOf_stored _ _ G) in He.
    + now rewrite (profileOf_new _ _ O).
Qed.

Lemma priceWithinRange_unbounded profile product :
  Profile.preferredPriceRange profile = None ->
  PriceRange.max (Profile.priceRange profile) = PosInf ->
  priceWithinRange profile product
  = (toNumber (Product.price product)
     >= PriceRange.min (Profile.priceRange profile))%js.
Proof.
  intros Hp Hm. unfold priceWithinRange, effectivePriceRange. rewrite Hp, Hm.
  destruct (toNumber (Product.price product)) as [r| | |]; cbn.
  - apply andb_true_r.
  - apply andb_true_r.
  - apply andb_true_r.
  - now destruct (PriceRange.min (Profile.priceRange profile)).
Qed.

Lemma pricedView_profile :
  let profile :=
    profileOf "u" (run [("u", pricedView)] (emptyEngine defaultConfig winterClock)) in
  Profile.priceRange profile
  = {| PriceRange.min := Fin 5000; PriceRange.max := PosInf |} /\
  Profile.preferredPriceRange profile = None.
Proof.
  cbn. unfold priceStep, updatePricePreferences. num_eval. split; reflexivity.
Qed.

(** C10 (as stated, refuted).  After one view of a product at 5000, by a
    user without purchases, the price range is [{min: 5000, max: Infinity}]
    (the guard [!priceRange.min] takes the initial [0] for a missing bound):
    a candidate at 3000 fails the price test. *)
Lemma a_cheaper_product_fails_the_price_test :
  ~ (forall e userId events,
       get userId (userProfiles e) = None ->
       every_price_passes (profileOf userId (run events e))).
Proof.
  intros H.
  specialize (H (emptyEngine defaultConfig winterClock) "u" [("u", pricedView)]
                eq_refl).
  destruct pricedView_profile as [Hrange Hpref].
  specialize (H Hpref (pricedProduct 2 3000) 3000%R eq_refl).
  unfold priceWithinRange, effectivePriceRange in H. rewrite Hpref, Hrange in H.
  revert H. num_eval. discriminate.
Qed.

(** With no upper bound, the fixed [0.2] of the price term is added exactly
    when the price is not below [priceRange.min]. *)
Lemma contentScore_unbounded profile product :
  Profile.preferredPriceRange profile = None ->
  PriceRange.max (Profile.priceRange profile) = PosInf ->
  contentScore profile product
  = withStyleScore profile product
      (if (toNumber (Product.price product)
           >= PriceRange.min (Profile.priceRange profile))%js
       then (affinityScore profile product + Fin 0.2)%js
       else affinityScore profile product).
Proof.
  intros Hp Hm. unfold contentScore, withStyleScore, affinityScore.
  rewrite (priceWithinRange_unbounded profile product Hp Hm).
  destruct (_ >= _)%js; reflexivity.
Qed.

(** After the view at 5000, a shirt at 6000 scores the [0.2] of the price
    term, and a shirt at 3000 scores nothing. *)
Lemma contentScore_after_pricedView :
  let profile :=
    profileOf "u" (run [("u", pricedView)] (emptyEngine defaultConfig winterClock)) in
  contentScore profile (pricedProduct 3 6000) = Fin 0.2 /\
  contentScore profile (pricedProduct 2 3000) = Fin 0.
Proof.
  cbn. unfold priceStep, updatePricePreferences, contentScore, priceWithinRange,
    effectivePriceRange.
  num_eval. split; num_eq.
Qed.

(** C10 (amended).  Every profile created for an unseen user has the price
    range [{min: 0, max: Infinity}]; [updatePricePreferences] never moves
    [max] away from [Infinity], so the profile of a user who was new keeps
    [max = Infinity] along every run; and as long as such a profile has no
    [preferredPriceRange], a candidate passes the price test of
    [getContentBasedRecommendations] exactly when its price is [>=] the
    profile's [priceRange.min], and the score of a candidate (its category,
    brand and tags being no names inherited from [Object.prototype]) has the
    fixed [0.2] of the price term added exactly then. *)
Theorem price_range_stays_unbounded_above :
  forall e userId events,
    get userId (userProfiles e) = None ->
    let profile := profileOf userId (run events e) in
    Profile.priceRange (profileOf userId e)
    = {| PriceRange.min := Fin 0; PriceRange.max := PosInf |} /\
    (forall p price,
       PriceRange.max (Profile.priceRange p) = PosInf ->
       PriceRange.max (Profile.priceRange (updatePricePreferences p price)) = PosInf) /\
    PriceRange.max (Profile.priceRange profile) = PosInf /\
    (Profile.preferredPriceRange profile = None ->
     forall product,
       priceWithinRange profile product
       = (toNumber (Product.price product)
          >= PriceRange.min (Profile.priceRange profile))%js) /\
    (Profile.preferredPriceRange profile = None ->
     forall product,
       scoredByOwnNames product ->
       contentScore profile product
       = withStyleScore profile product
           (if (toNumber (Product.price product)
                >= PriceRange.min (Profile.priceRange profile))%js
            then (affinityScore profile product + Fin 0.2)%js
            else affinityScore profile product)).
Proof.
  intros e userId events Hnew profile.
  assert (H0 : Profile.priceRange (profileOf userId e)
               = {| PriceRange.min := Fin 0; PriceRange.max := PosInf |})
    by now rewrite (profileOf_new _ _ Hnew).
  assert (Hmax : PriceRange.max (Profile.priceRange profile) = PosInf).
  { apply run_max. now rewrite H0. }
  repeat split; auto using updatePricePreferences_max.
  - intros Hp product. now apply priceWithinRange_unbounded.
  - intros Hp product _. now apply contentScore_unbounded.
Qed.

Lemma price_range_stays_unbounded_above_witness :
  let e := emptyEngine defaultConfig winterClock in
  let profile := profileOf "u" (run [("u", pricedView)] e) in
  Profile.priceRange (profileOf "u" e)
  = {| PriceRange.min := Fin 0; PriceRange.max := PosInf |} /\
  (forall p price,
     PriceRange.max (Profile.priceRange p) = PosInf ->
     PriceRange.max (Profile.priceRange (updatePricePreferences p price)) = PosInf) /\
  PriceRange.max (Profile.priceRange profile) = PosInf /\
  (Profile.preferredPriceRange profile = None ->
   forall product,
     priceWithinRange profile product
     = (toNumber (Product.price product)
        >= PriceRange.min (Profile.priceRange profile))%js) /\
  (Profile.preferredPriceRange profile = None ->
   forall product,
     scoredByOwnNames product ->
     contentScore profile product
     = withStyleScore profile product
         (if (toNumber (Product.price product)
              >= PriceRange.min (Profile.priceRange profile))%js
          then (affinityScore profile product + Fin 0.2)%js
          else affinityScore profile product)).
Proof.
  exact (price_range_stays_unbounded_above
           (emptyEngine defaultConfig winterClock) "u" [("u", pricedView)] eq_refl).
Defined.

(** * Further properties of the engine *)

(** ** The diversity filter, in general *)

Lemma count_in_Set {A} `{EqDec A} (x : A) (s : list A) :
  NoDup s -> List.length (filter (fun c => same c x) s) <= 1.
Proof.
  induction 1 as [|y s Hy Hs IH]; cbn [filter List.length]; [lia |].
  destruct (same y x) eqn:E; [| exact IH].
  apply same_true in E. subst y. cbn [List.length].
  replace (filter (fun c => same c x) s) with (@nil A); [simpl; lia |].
  symmetry. clear - Hy. induction s as [|z s IH]; cbn [filter]; [reflexivity |].
  destruct (same z x) eqn:E.
  - apply same_true in E. subst. exfalso. apply Hy. simpl. auto.
  - apply IH. intros Hin. apply Hy. simpl. auto.
Qed.

Lemma below_cap (count : nat) (maxPerCategory : number) :
  count <= 1 -> (maxPerCategory > Fin 1)%js = true ->
  (Num.ofNat count < maxPerCategory)%js = true.
Proof.
  intros Hc Hm. unfold Num.gt in Hm. unfold Num.ofNat.
  assert (INR count <= 1)%R.
  { destruct count as [|[|n]]; cbn; try lra. lia. }
  destruct maxPerCategory as [m| | |]; cbn in *; try discriminate; auto.
  unfold Num.Rltb in *. destruct (Rlt_dec 1 m); [| discriminate].
  destruct (Rlt_dec (INR count) m); [reflexivity | lra].
Qed.

(** With a cap above 1, the first pass takes the candidates as they come. *)
Lemma firstPass_takes_all limit maxPer recs :
  (maxPer > Fin 1)%js = true ->
  forall diverse used,
    NoDup used ->
    diversityFirstPass limit maxPer recs diverse used
    = diverse ++ firstn (limit - List.length diverse) recs.
Proof.
  intros Hm. induction recs as [|rec rest IH]; intros diverse used Hu;
    cbn [diversityFirstPass].
  - now rewrite firstn_nil, app_nil_r.
  - destruct (limit <=? List.length diverse) eqn:E.
    + apply Nat.leb_le in E.
      replace (limit - List.length diverse) with 0 by lia.
      now rewrite app_nil_r.
    + apply Nat.leb_gt in E.
      rewrite below_cap by (auto using count_in_Set).
      rewrite IH by now apply SetAdd_NoDup.
      rewrite length_app. cbn [List.length].
      replace (limit - List.length diverse)
        with (S (limit - (List.length diverse + 1))) by lia.
      cbn [firstn]. now rewrite <- app_assoc.
Qed.

Lemma secondPass_full limit recs diverse :
  limit <= List.length diverse -> diversitySecondPass limit recs diverse = diverse.
Proof.
  intros H. destruct recs; cbn [diversitySecondPass]; [reflexivity |].
  apply Nat.leb_le in H. now rewrite H.
Qed.

(** ** The diversity filter on eight candidates *)

Lemma ceil_eq (r : R) (z : Z) :
  (IZR z - 1 < r <= IZR z)%R -> Num.ceil (Fin r) = Fin (IZR z).
Proof. intros H. cbn. now rewrite (Zceil_eq z r H). Qed.

Lemma maxPerCategory_of_4 :
  Num.ceil (Num.ofNat 4 * Config.diversityFactor defaultConfig)%js = Fin 2.
Proof. num_eval. apply ceil_eq with (z := 2%Z). lra. Qed.

(** C3 (failing input).  With [limit = 4] and the default
    [diversityFactor = 0.3] the cap is [ceil(1.2) = 2].  Of eight candidates,
    four of them shoes and four of other categories, the filter returns the
    four pairs of shoes: [usedCategories] is a [Set], so the count of a
    category in it never exceeds 1 and the first pass lets every candidate
    through.  Two pairs of shoes and two of the other candidates would have
    filled the four places within the cap. *)
Theorem diversity_filter_returns_four_shoes :
  Num.ceil (Num.ofNat 4 * Config.diversityFactor defaultConfig)%js = Fin 2 /\
  applyDiversityFilter defaultConfig eightCandidates 4 = firstn 4 eightCandidates /\
  occurrences (Some "shoes") (applyDiversityFilter defaultConfig eightCandidates 4) = 4 /\
  occurrences (Some "shoes") eightCandidates = 4 /\
  List.length eightCandidates = 8.
Proof.
  assert (E : applyDiversityFilter defaultConfig eightCandidates 4
              = firstn 4 eightCandidates).
  { unfold applyDiversityFilter.
    change (List.length eightCandidates <=? 4) with false. cbv iota.
    rewrite maxPerCategory_of_4.
    rewrite firstPass_takes_all;
      [| unfold Num.gt; cbn [Num.lt]; apply Rltb_true; lra | constructor ].
    cbn [app List.length Nat.sub].
    rewrite secondPass_full
      by (rewrite length_firstn; unfold eightCandidates; cbn [List.length]; lia).
    unfold slice0. rewrite firstn_firstn. reflexivity. }
  split; [exact maxPerCategory_of_4 |]. split; [exact E |].
  rewrite E. repeat split.
Qed.

(** When the cap [ceil(limit * diversityFactor)] is 2 or more, the filter
    does not filter: it returns the first [limit] candidates, whatever
    their categories.  The count it compares with the cap is taken in a
    [Set] of categories and is never above 1. *)
Theorem diversity_filter_without_effect :
  forall cfg recommendations limit,
    (Num.ceil (Num.ofNat limit * Config.diversityFactor cfg)%js > Fin 1)%js = true ->
    applyDiversityFilter cfg recommendations limit = slice0 limit recommendations.
Proof.
  intros cfg recs limit Hcap. unfold applyDiversityFilter, slice0.
  destruct (List.length recs <=? limit) eqn:E.
  - apply Nat.leb_le in E. symmetry. now apply firstn_all2.
  - apply Nat.leb_gt in E.
    rewrite firstPass_takes_all by (auto; constructor).
    cbn [app List.length]. rewrite Nat.sub_0_r.
    rewrite secondPass_full by (rewrite length_firstn; lia).
    unfold slice0. apply firstn_all2. rewrite length_firstn. lia.
Qed.

Lemma diversity_filter_without_effect_witness :
  applyDiversityFilter defaultConfig eightCandidates 4 = slice0 4 eightCandidates.
Proof.
  apply diversity_filter_without_effect.
  rewrite maxPerCategory_of_4. now num_eval.
Defined.

Lemma secondPass_fills limit recs :
  forall diverse,
    let result := diversitySecondPass limit recs diverse in
    incl (refs diverse) (refs result) /\
    (limit <= List.length result \/ incl (refs recs) (refs result)).
Proof.
  induction recs as [|rec rest IH]; intros diverse; cbn [diversitySecondPass].
  - split; [apply incl_refl | right; intros x []].
  - destruct (limit <=? List.length diverse) eqn:E.
    + apply Nat.leb_le in E. split; [apply incl_refl | now left].
    + destruct (includes (Scored.ref rec) (map Scored.ref diverse)) eqn:I;
        cbn [negb].
      * destruct (IH diverse) as [Hincl Hfull]. split; [exact Hincl |].
        destruct Hfull as [Hfull|Hfull]; [now left | right].
        intros x [<-|Hx]; [| now apply Hfull].
        apply Hincl. now apply includes_In in I.
      * destruct (IH (diverse ++ [rec])) as [Hincl Hfull].
        assert (Hsub : incl (refs (diverse ++ [rec]))
                         (refs (diversitySecondPass limit rest (diverse ++ [rec]))))
          by exact Hincl.
        unfold refs in Hsub. rewrite map_app in Hsub. split.
        -- intros x Hx. apply Hsub. apply in_or_app. now left.
        -- destruct Hfull as [Hfull|Hfull]; [now left | right].
           intros x [<-|Hx]; [| now apply Hfull].
           apply Hsub. apply in_or_app. right. simpl. auto.
Qed.

(** Given distinct objects, the filter returns exactly [min(limit, n)] of
    them, each one at most once. *)
Theorem diversity_filter_size :
  forall cfg recommendations limit,
    NoDup (refs recommendations) ->
    let result := applyDiversityFilter cfg recommendations limit in
    List.length result = Nat.min limit (List.length recommendations) /\
    NoDup (refs result) /\
    incl result recommendations.
Proof.
  intros cfg recs limit Hnd result. split; [| split].
  - subst result. unfold applyDiversityFilter.
    destruct (List.length recs <=? limit) eqn:E.
    + apply Nat.leb_le in E. lia.
    + apply Nat.leb_gt in E. unfold slice0. rewrite length_firstn.
      set (first := diversityFirstPass _ _ recs [] []).
      destruct (secondPass_fills limit recs first) as [_ [Hfull|Hfull]]; [lia |].
      apply NoDup_incl_length in Hfull; [| exact Hnd].
      unfold refs in Hfull. rewrite !length_map in Hfull. lia.
  - now apply applyDiversityFilter_NoDup.
  - intros x. apply applyDiversityFilter_In.
Qed.

Lemma diversity_filter_size_witness :
  let result := applyDiversityFilter defaultConfig eightCandidates 3 in
  List.length result = Nat.min 3 (List.length eightCandidates) /\
  NoDup (refs result) /\
  incl result eightCandidates.
Proof.
  apply diversity_filter_size.
  repeat constructor; simpl; intuition discriminate.
Defined.

(** ** The history and the counters of a profile *)

Lemma updateConversionMetrics_counters profile interaction e :
  let profile' := fst (updateConversionMetrics profile interaction e) in
  Profile.totalInteractions profile' = Profile.totalInteractions profile /\
  Profile.userId profile' = Profile.userId profile /\
  Profile.lastUpdated profile' = Profile.lastUpdated profile.
Proof.
  unfold updateConversionMetrics.
  destruct (same (Interaction.type interaction) (Some "purchase")); cbn;
    repeat split.
Qed.

Section CounterFrame.
Variables (cfg : Config.t) (i : Interaction.t) (now : Z) (w : number) (p : Profile.t).

Lemma addToBehaviorHistory_totalInteractions :
  Profile.totalInteractions (addToBehaviorHistory cfg i now w p)
  = Profile.totalInteractions p.
Proof. frame. Qed.

Lemma categoryStep_counters :
  Profile.totalInteractions (categoryStep cfg i p) = Profile.totalInteractions p /\
  Profile.behaviorHistory (categoryStep cfg i p) = Profile.behaviorHistory p.
Proof. split; frame. Qed.

Lemma brandStep_counters :
  Profile.totalInteractions (brandStep cfg i p) = Profile.totalInteractions p /\
  Profile.behaviorHistory (brandStep cfg i p) = Profile.behaviorHistory p.
Proof. split; frame. Qed.

Lemma priceStep_counters :
  Profile.totalInteractions (priceStep i p) = Profile.totalInteractions p /\
  Profile.behaviorHistory (priceStep i p) = Profile.behaviorHistory p.
Proof. split; frame. Qed.

Lemma styleStep_counters :
  Profile.totalInteractions (styleStep i p) = Profile.totalInteractions p /\
  Profile.behaviorHistory (styleStep i p) = Profile.behaviorHistory p.
Proof. split; frame. Qed.

End CounterFrame.

Lemma steps_totalInteractions cfg i now w p :
  Profile.totalInteractions
    (styleStep i (priceStep i (brandStep cfg i (categoryStep cfg i
       (addToBehaviorHistory cfg i now w p)))))
  = Profile.totalInteractions p.
Proof.
  rewrite (proj1 (styleStep_counters _ _)), (proj1 (priceStep_counters _ _)),
    (proj1 (brandStep_counters _ _ _)), (proj1 (categoryStep_counters _ _ _)).
  apply addToBehaviorHistory_totalInteractions.
Qed.

Lemma steps_behaviorHistory cfg i now w p :
  Profile.behaviorHistory
    (styleStep i (priceStep i (brandStep cfg i (categoryStep cfg i
       (addToBehaviorHistory cfg i now w p)))))
  = Profile.behaviorHistory (addToBehaviorHistory cfg i now w p).
Proof.
  now rewrite (proj2 (styleStep_counters _ _)), (proj2 (priceStep_counters _ _)),
    (proj2 (brandStep_counters _ _ _)), (proj2 (categoryStep_counters _ _ _)).
Qed.

Lemma addToBehaviorHistory_length cfg i now w p :
  0 < Config.maxHistoryItems cfg ->
  List.length (Profile.behaviorHistory (addToBehaviorHistory cfg i now w p))
  = Nat.min (S (List.length (Profile.behaviorHistory p))) (Config.maxHistoryItems cfg).
Proof.
  intros Hmax. unfold addToBehaviorHistory. cbn [Profile.behaviorHistory
    Profile.with_behaviorHistory].
  rewrite length_app. cbn [List.length].
  destruct (Config.maxHistoryItems cfg <? _) eqn:E.
  - apply Nat.ltb_lt in E. unfold sliceLast.
    destruct (Config.maxHistoryItems cfg) as [|m] eqn:M; [lia |].
    rewrite length_skipn, length_app. cbn [List.length]. lia.
  - apply Nat.ltb_ge in E. rewrite length_app. cbn [List.length]. lia.
Qed.

(** The newest entry is the last of the history, and it carries the time of
    the recording. *)
Lemma addToBehaviorHistory_last cfg i now w p :
  0 < Config.maxHistoryItems cfg ->
  exists older,
    Profile.behaviorHistory (addToBehaviorHistory cfg i now w p)
    = older ++ [ {| HistoryEntry.interaction := i; HistoryEntry.timestamp := now;
                    HistoryEntry.weight := w |} ].
Proof.
  intros Hmax. unfold addToBehaviorHistory. cbn [Profile.behaviorHistory
    Profile.with_behaviorHistory].
  destruct (Config.maxHistoryItems cfg <? _) eqn:E; [| eauto].
  apply Nat.ltb_lt in E. rewrite length_app in E. cbn [List.length] in E.
  unfold sliceLast. destruct (Config.maxHistoryItems cfg) as [|m] eqn:M; [lia |].
  rewrite length_app. cbn [List.length].
  rewrite skipn_app.
  replace (List.length (Profile.behaviorHistory p) + 1 - S m
           - List.length (Profile.behaviorHistory p)) with 0 by lia.
  cbn [skipn]. eauto.
Qed.

Lemma updateUserProfile_counters e userId interaction :
  let before := profileOf userId e in
  let after := fst (updateUserProfile userId interaction e) in
  Profile.totalInteractions after = S (Profile.totalInteractions before) /\
  (0 < Config.maxHistoryItems (config e) ->
   List.length (Profile.behaviorHistory after)
   = Nat.min (S (List.length (Profile.behaviorHistory before)))
             (Config.maxHistoryItems (config e))).
Proof.
  cbv zeta. unfold profileOf.
  destruct (updateUserProfile_run e userId interaction)
    as (now & w & e2 & e3 & p' & _ & _ & Hconv & Hrun).
  rewrite Hrun. cbn [fst].
  match type of Hconv with updateConversionMetrics ?q _ _ = _ =>
    pose proof (updateConversionMetrics_counters q interaction e2) as C;
    pose proof (updateConversionMetrics_frame q interaction e2) as F
  end.
  rewrite Hconv in C, F. cbn [fst] in C, F.
  destruct C as (C & _). destruct F as (_ & _ & _ & _ & F & _).
  split.
  - cbn. rewrite C. now rewrite steps_totalInteractions.
  - intros Hmax.
    change (Profile.behaviorHistory (countInteraction now p'))
      with (Profile.behaviorHistory p').
    rewrite F, steps_behaviorHistory. now apply addToBehaviorHistory_length.
Qed.

Lemma profileOf_event_other userId ev e :
  fst ev <> userId ->
  sameButLastUpdated
    (profileOf userId (snd (updateUserProfile (fst ev) (snd ev) e)))
    (profileOf userId e).
Proof.
  intros Hne.
  pose proof (@updateUserProfile_others e (fst ev) (snd ev) userId
                (not_eq_sym Hne)) as O.
  destruct (get userId (userProfiles e)) as [p|] eqn:G.
  - rewrite (profileOf_stored _ _ O), (profileOf_stored _ _ G). reflexivity.
  - rewrite (profileOf_new _ _ O), (profileOf_new _ _ G). reflexivity.
Qed.

Lemma sameButLastUpdated_fields p q :
  sameButLastUpdated p q ->
  Profile.totalInteractions p = Profile.totalInteractions q /\
  Profile.behaviorHistory p = Profile.behaviorHistory q /\
  Profile.purchaseHistory p = Profile.purchaseHistory q /\
  Profile.brandAffinities p = Profile.brandAffinities q /\
  Profile.priceRange p = Profile.priceRange q /\
  Profile.styleProfile p = Profile.styleProfile q /\
  Profile.conversionRate p = Profile.conversionRate q.
Proof.
  unfold sameButLastUpdated. destruct p, q. cbn. intros H. inversion H.
  repeat split.
Qed.

Lemma interactionsOf_snoc userId events ev :
  interactionsOf userId (events ++ [ev])
  = interactionsOf userId events
    ++ (if same (fst ev) userId then [snd ev] else []).
Proof.
  unfold interactionsOf. rewrite filter_app, map_app. cbn [filter].
  now destruct (same (fst ev) userId).
Qed.

(** The history is capped, the counter is not.  Along every run that
    starts before the user has a profile, on an engine whose
    [maxHistoryItems] is not 0, [totalInteractions] is the number of
    interactions recorded for the user and [behaviorHistory] holds the
    smaller of that number and [maxHistoryItems]. *)
Theorem history_is_capped_and_counter_is_not :
  forall e userId events,
    get userId (userProfiles e) = None ->
    0 < Config.maxHistoryItems (config e) ->
    let profile := profileOf userId (run events e) in
    let n := List.length (interactionsOf userId events) in
    Profile.totalInteractions profile = n /\
    List.length (Profile.behaviorHistory profile)
    = Nat.min n (Config.maxHistoryItems (config e)).
Proof.
  intros e userId events Hnew Hmax. cbv zeta.
  induction events as [|ev events IH] using rev_ind.
  - cbn. rewrite (profileOf_new _ _ Hnew). cbn. split; [reflexivity | lia].
  - rewrite run_app, interactionsOf_snoc, length_app.
    change (run [ev] (run events e))
      with (snd (updateUserProfile (fst ev) (snd ev) (run events e))).
    destruct IH as [IHt IHh].
    destruct (same (fst ev) userId) eqn:E.
    + apply same_true in E. rewrite E in *.
      rewrite (profileOf_stored _ _
                 (updateUserProfile_stored (run events e) userId (snd ev))).
      destruct (updateUserProfile_counters (run events e) userId (snd ev))
        as [Ht Hh].
      rewrite run_config in Hh. specialize (Hh Hmax).
      rewrite Ht, Hh, IHt, IHh. cbn [List.length]. split; lia.
    + apply same_false in E.
      destruct (sameButLastUpdated_fields
                  (@profileOf_event_other userId ev (run events e) E))
        as (Ht & Hh & _).
      rewrite Ht, Hh, IHt, IHh. cbn [List.length]. split; lia.
Qed.

Lemma history_is_capped_witness :
  let e := emptyEngine defaultConfig winterClock in
  let profile := profileOf "u" (run [("u", winterView); ("v", pricedView)] e) in
  let n := List.length (interactionsOf "u" [("u", winterView); ("v", pricedView)]) in
  Profile.totalInteractions profile = n /\
  List.length (Profile.behaviorHistory profile)
  = Nat.min n (Config.maxHistoryItems (config e)).
Proof.
  apply history_is_capped_and_counter_is_not; [reflexivity | cbn; lia].
Defined.
